(** * BookStore_Manager: a shallow embedding of [bookstore.py]

    The program is a terminal-driven sales ledger over an SQLite store
    with three tables ([member], [book], [sale]).  This development
    embeds the whole program: the Python string primitives it relies
    on, the store and its transactions, the console, and the five
    handlers together with the menu loop.

    Conventions of the embedding.
    - A Python [str] is a [string]; each character is one code point
      (code points 0..255 are representable).
    - Python integers are [Z], of any size.  An integer that the
      program passes to a statement must fit the 64 bits of an SQLite
      INTEGER, or the binding raises [OverflowError]; the integers of
      the tables are [Z] too and are taken to be within that range.
      NULL columns are outside the model.
    - A run of a handler is a function on a [world]: the connection
      (the store and, while a transaction is open, the store as it was
      at BEGIN), the lines still to be typed, what has been printed,
      an oracle telling which storage calls fail, and the log of what
      the storage layer did.
    - The program has one connection, but the database is a file:
      another process may write to it while the program waits at a
      prompt.  A typed line carries the change made meanwhile, if any.
    - [conn.rollback()] itself does not fail. *)

From Stdlib Require Import ZArith String Ascii.
From stdpp Require Import gmap strings list fin_maps sorting.

Open Scope Z_scope.

(** ** Python string primitives *)

Module Str.

(** The characters [str.strip()] removes ([Py_UNICODE_ISSPACE]), among
    the code points below 256: TAB..CR, FS..US, space, NEL and NBSP. *)
Definition is_space (c : ascii) : bool :=
  let n := Z.of_N (N_of_ascii c) in
  ((9 <=? n) && (n <=? 13)) || ((28 <=? n) && (n <=? 32))
  || (n =? 133) || (n =? 160).

(** The characters [int()] skips around a literal: the same without
    FS..US. *)
Definition is_int_space (c : ascii) : bool :=
  let n := Z.of_N (N_of_ascii c) in
  ((9 <=? n) && (n <=? 13)) || (n =? 32) || (n =? 133) || (n =? 160).

Definition is_digit (c : ascii) : bool :=
  let n := Z.of_N (N_of_ascii c) in (48 <=? n) && (n <=? 57).

Definition digit_val (c : ascii) : Z := Z.of_N (N_of_ascii c) - 48.

(** [s.count(c)] for a one-character needle. *)
Fixpoint count (c : ascii) (s : string) : nat :=
  match s with
  | EmptyString => 0%nat
  | String a s' => ((if Ascii.eqb a c then 1 else 0) + count c s')%nat
  end.

(** [s.split(c)] for a one-character separator. *)
Fixpoint split (sep : ascii) (s : string) : list string :=
  match s with
  | EmptyString => [EmptyString]
  | String a s' =>
      if Ascii.eqb a sep then EmptyString :: split sep s'
      else match split sep s' with
           | tok :: toks => String a tok :: toks
           | [] => [String a EmptyString]
           end
  end.

(** [sep.join(l)] *)
Fixpoint join (sep : ascii) (l : list string) : string :=
  match l with
  | [] => EmptyString
  | [tok] => tok
  | tok :: l' => (tok ++ String sep (join sep l'))%string
  end.

Fixpoint lstrip (sp : ascii → bool) (s : string) : string :=
  match s with
  | EmptyString => EmptyString
  | String a s' => if sp a then lstrip sp s' else s
  end.

Fixpoint rstrip (sp : ascii → bool) (s : string) : string :=
  match s with
  | EmptyString => EmptyString
  | String a s' =>
      match rstrip sp s' with
      | EmptyString => if sp a then EmptyString else String a EmptyString
      | r => String a r
      end
  end.

(** [s.strip()] *)
Definition strip (s : string) : string := rstrip is_space (lstrip is_space s).

(** [c.lower()] for a code point below 256: A..Z and the capital
    letters of Latin-1 (all of 192..222 but the multiplication sign). *)
Definition lower_char (c : ascii) : ascii :=
  let n := N_of_ascii c in
  if ((65 <=? n) && (n <=? 90))%N
     || ((192 <=? n) && (n <=? 222) && negb (n =? 215))%N
  then ascii_of_N (n + 32)
  else c.

(** [s.lower()] *)
Fixpoint lower (s : string) : string :=
  match s with
  | EmptyString => EmptyString
  | String a s' => String (lower_char a) (lower s')
  end.

(** The digits of a decimal literal: at least one digit, and an
    underscore only between two digits. *)
Fixpoint parse_digits (acc : Z) (after_digit : bool) (s : string) : option Z :=
  match s with
  | EmptyString => if after_digit then Some acc else None
  | String a s' =>
      if is_digit a then parse_digits (10 * acc + digit_val a) true s'
      else if Ascii.eqb a "_" && after_digit then parse_digits acc false s'
      else None
  end.

(** [int(s)]: [None] stands for the [ValueError]. *)
Definition py_int (s : string) : option Z :=
  match rstrip is_int_space (lstrip is_int_space s) with
  | String "-" ds => Z.opp <$> parse_digits 0 false ds
  | String "+" ds => parse_digits 0 false ds
  | ds => parse_digits 0 false ds
  end.

End Str.

(** ** [validate_date] *)

Definition validate_date (date_str : string) : bool :=
  if negb (String.length date_str =? 10)%nat
     || negb (Str.count "-" date_str =? 2)%nat
  then false
  else
    match Str.py_int <$> Str.split "-" date_str with
    | [Some year; Some month; Some day] =>
        if (month <? 1) || (month >? 12) || (day <? 1) || (day >? 31)
        then false
        else true
    | _ => false
    end.

(** The contract of the date validator as the specification words it. *)
Definition validate_date_spec (s : string) : Prop :=
  String.length s = 10%nat ∧
  Str.count "-" s = 2%nat ∧
  ∃ year month day : Z,
    Str.py_int <$> Str.split "-" s = [Some year; Some month; Some day] ∧
    1 <= month <= 12 ∧ 1 <= day <= 31.

(** ** The store *)

(** Modelled from the spec: the schema is created outside the program;
    section 6 gives [book(bid PK, btitle, bprice, bstock)]. *)
Record book_row := BookRow { btitle : string; bprice : Z; bstock : Z }.

(** Modelled from the spec: the schema is created outside the program;
    section 6 gives [sale(sid PK autoincrement, sdate, mid FK, bid FK,
    sqty, sdiscount, stotal)].  The key [sid] is the key of the table. *)
Record sale_row := SaleRow {
  sdate : string; mid : string; bid : string;
  sqty : Z; sdiscount : Z; stotal : Z }.

(** The three tables, keyed by their primary keys, and the AUTOINCREMENT
    counter of [sale] (the largest [sid] handed out so far). *)
Record database := Database {
  member : gmap string string;
  book : gmap string book_row;
  sale : gmap Z sale_row;
  sale_seq : Z }.

Definition max_sid (t : gmap Z sale_row) : Z :=
  map_fold (λ k _ acc, Z.max k acc) 0 t.

(** Modelled from the spec: [sid] is an AUTOINCREMENT key, so a new row
    gets a key above every key of the table and every key used before. *)
Definition next_sid (d : database) : Z :=
  Z.max (sale_seq d) (max_sid (sale d)) + 1.

(** ** Exceptions, console and world *)

Inductive sqlite_error :=
| ProgrammingError   (* wrong number of bindings supplied *)
| OperationalError   (* BEGIN inside a transaction *)
| StorageFault.      (* the storage layer itself fails *)

Inductive exn :=
| ValueError
| IndexError
| EOFError
| OverflowError      (* an integer parameter beyond 64 bits *)
| Sqlite3Error (e : sqlite_error).

Inductive prompt :=
| AskDate | AskMember | AskBook | AskQty | AskDiscount
| AskUpdateChoice | AskNewDiscount
| AskDeleteChoice | AskConfirm (sid : Z)
| AskMenu.

(** One constructor for each [print] of the program (the twelve lines
    of a report block are one [ReportBlock]), with the values the
    message interpolates. *)
Inductive output :=
| Prompt (p : prompt)
| ErrDateFormat
| ErrNoMember
| ErrNoBook
| ErrQtyNotPositive
| ErrQtyNotInt
| ErrStock (bstock : Z)
| ErrDiscountNegative
| ErrDiscountNotInt
| SaleAdded (stotal : Z)
| DbError (e : sqlite_error)
| OtherError (e : exn)
| NoSales
| ReportBlock (sid : Z) (sdate mname btitle : string)
              (bprice sqty sdiscount stotal : Z)
| NothingToUpdate
| NothingToDelete
| ListHeader
| ListLine (i : nat) (sid : Z) (mname sdate : string)
| ListFooter
| ErrChoice
| ErrSaleNotFound
| SaleUpdated (sid new_total : Z)
| DeleteCancelled
| SaleDeleted (sid : Z)
| Menu
| ErrMenuChoice
| ErrConnect (e : sqlite_error)
| Goodbye.

(** What the storage layer did, in order. *)
Inductive sql_event :=
| LogBegin (d : database)
| LogError
| LogCommit
| LogRollback.

(** A line typed at a prompt.  While the program waits for it another
    process may have committed to the database file: [meanwhile] is
    then the state it left. *)
Record typed := Typed { line : string; meanwhile : option database }.

Definition interfere (other : option database) (d : database) : database :=
  match other with Some d' => d' | None => d end.

(** [store] and [snapshot] are the connection [conn] that [main] hands
    to every handler: the current contents, and the contents at BEGIN
    while a transaction is open.  [faults] says, for each coming
    storage call, whether the storage layer fails there. *)
Record world := World {
  store : database;
  snapshot : option database;
  stdin : list typed;
  stdout : list output;
  faults : list bool;
  sqllog : list sql_event }.

Definition set_store (d : database) (w : world) : world :=
  World d (snapshot w) (stdin w) (stdout w) (faults w) (sqllog w).
Definition set_snapshot (s : option database) (w : world) : world :=
  World (store w) s (stdin w) (stdout w) (faults w) (sqllog w).
Definition set_stdin (i : list typed) (w : world) : world :=
  World (store w) (snapshot w) i (stdout w) (faults w) (sqllog w).
Definition emit (o : list output) (w : world) : world :=
  World (store w) (snapshot w) (stdin w) (stdout w ++ o) (faults w) (sqllog w).
Definition set_faults (f : list bool) (w : world) : world :=
  World (store w) (snapshot w) (stdin w) (stdout w) f (sqllog w).
Definition log (e : sql_event) (w : world) : world :=
  World (store w) (snapshot w) (stdin w) (stdout w) (faults w) (sqllog w ++ [e]).

(** ** The monad of handlers: state, exceptions and early [return] *)

Inductive outcome (A : Type) :=
| Normal (a : A)     (* fell through to the next statement *)
| Returned           (* executed a [return] statement *)
| Raised (e : exn).
Arguments Normal {A} a.
Arguments Returned {A}.
Arguments Raised {A} e.

Definition M (A : Type) : Type := world → outcome A * world.

Definition ret {A} (a : A) : M A := λ w, (Normal a, w).
Definition bind {A B} (m : M A) (k : A → M B) : M B := λ w,
  match m w with
  | (Normal a, w') => k a w'
  | (Returned, w') => (Returned, w')
  | (Raised e, w') => (Raised e, w')
  end.
Definition raise {A} (e : exn) : M A := λ w, (Raised e, w).
Definition return_ {A} : M A := λ w, (Returned, w).

Notation "x <- m ; k" := (bind m (λ x, k))
  (at level 20, m at level 100, k at level 200, only parsing).
Notation "m >> k" := (bind m (λ _, k))
  (at level 100, k at level 200, only parsing, right associativity).

Definition when (c : bool) (m : M unit) : M unit := if c then m else ret tt.

(** The body of a [def] without a result: [return] ends it. *)
Definition call (body : M unit) : M unit := λ w,
  match body w with
  | (Returned, w') => (Normal tt, w')
  | r => r
  end.

(** [try: body  except ...: handler e]; [handler e = None] when no
    clause matches [e]. *)
Definition try_except {A} (body : M A) (handler : exn → option (M A)) : M A :=
  λ w,
  match body w with
  | (Raised e, w') =>
      match handler e with Some h => h w' | None => (Raised e, w') end
  | r => r
  end.

(** [try: body  finally: final] *)
Definition try_finally {A} (body : M A) (final : M unit) : M A := λ w,
  match body w with
  | (r, w') =>
      match final w' with
      | (Normal _, w'') => (r, w'')
      | (Returned, w'') => (Returned, w'')
      | (Raised e, w'') => (Raised e, w'')
      end
  end.

Definition get {A} (f : world → A) : M A := λ w, (Normal (f w), w).
Definition modify (f : world → world) : M unit := λ w, (Normal tt, f w).

Definition print (o : output) : M unit := modify (emit [o]).

(** [input(prompt)] *)
Definition input (p : prompt) : M string := λ w,
  match stdin w with
  | [] => (Raised EOFError, emit [Prompt p] w)
  | t :: rest =>
      (Normal (line t),
       set_store (interfere (meanwhile t) (store w))
         (set_stdin rest (emit [Prompt p] w)))
  end.

(** [int(s)] *)
Definition int (s : string) : M Z :=
  match Str.py_int s with Some z => ret z | None => raise ValueError end.

Fixpoint for_each {A} (l : list A) (body : A → M unit) : M unit :=
  match l with
  | [] => ret tt
  | x :: l' => body x >> for_each l' body
  end.

(** [enumerate(l, start)] *)
Definition enumerate {A} (start : nat) (l : list A) : list (nat * A) :=
  zip (seq start (length l)) l.

(** [l[i]] *)
Definition index {A} (l : list A) (i : Z) : M A :=
  let j := if i <? 0 then i + Z.of_nat (length l) else i in
  if j <? 0 then raise IndexError
  else match l !! Z.to_nat j with
       | Some x => ret x
       | None => raise IndexError
       end.

(** Truth value of an [Optional[str]]: [None] and [''] are false. *)
Definition truthy (o : option string) : bool :=
  match o with
  | Some (String _ _) => true
  | _ => false
  end.

(** ** The storage layer *)

(** Every call into SQLite fails when the oracle says so. *)
Definition storage_call : M unit := λ w,
  match faults w with
  | true :: fs =>
      (Raised (Sqlite3Error StorageFault), log LogError (set_faults fs w))
  | false :: fs => (Normal tt, set_faults fs w)
  | [] => (Normal tt, w)
  end.

Definition sql_error {A} (e : sqlite_error) : M A :=
  modify (log LogError) >> raise (Sqlite3Error e).

(** [execute(sql, parameters)] up to the binding of the parameters: the
    statement has [needed] placeholders and [parameters] is a sequence
    of length [supplied]. *)
Definition execute (needed supplied : nat) : M unit :=
  storage_call >>
  if (needed =? supplied)%nat then ret tt else sql_error ProgrammingError.

Definition open_transaction : M unit :=
  d <- get store;
  modify (set_snapshot (Some d)) >> modify (log (LogBegin d)).

(** [conn.execute("BEGIN TRANSACTION")] *)
Definition begin_transaction : M unit :=
  execute 0 0 >>
  s <- get snapshot;
  match s with
  | Some _ => sql_error OperationalError
  | None => open_transaction
  end.

(** SQLite stores an integer in 64 bits, two's complement. *)
Definition fits_int64 (z : Z) : bool :=
  (- 2 ^ 63 <=? z) && (z <=? 2 ^ 63 - 1).

Definition bindable (ints : list Z) : bool := forallb fits_int64 ints.

(** The binding of the parameters of a statement with [needed]
    placeholders: [supplied] is their number and [ints] the Python
    integers among them that the program read or computed from what
    was typed.  A wrong number is an error of [sqlite3]; an integer
    beyond 64 bits raises [OverflowError], which is not one.  An
    integer that was read from a row of the database is an SQLite
    integer already and is not listed. *)
Definition bind_parameters (needed supplied : nat) (ints : list Z) : M unit :=
  (if (needed =? supplied)%nat then ret tt else sql_error ProgrammingError) >>
  if bindable ints then ret tt else raise OverflowError.

(** An INSERT, UPDATE or DELETE: once the statement is compiled the
    connection opens a transaction when none is open, then the
    parameters are bound, then the statement runs. *)
Definition execute_dml (needed supplied : nat) (ints : list Z)
    (f : database → database) : M unit :=
  storage_call >>
  s <- get snapshot;
  match s with Some _ => ret tt | None => open_transaction end >>
  bind_parameters needed supplied ints >>
  d <- get store;
  modify (set_store (f d)).

(** [conn.commit()] *)
Definition commit : M unit :=
  s <- get snapshot;
  match s with
  | None => ret tt
  | Some _ =>
      storage_call >>
      modify (set_snapshot None) >> modify (log LogCommit)
  end.

(** [conn.rollback()] *)
Definition rollback : M unit :=
  s <- get snapshot;
  match s with
  | None => ret tt
  | Some d =>
      modify (set_store d) >>
      modify (set_snapshot None) >> modify (log LogRollback)
  end.

(** *** The statements of the program *)

Definition sid_le (a b : Z * sale_row) : Prop := a.1 ≤ b.1.
Global Instance sid_le_dec : RelDecision sid_le.
Proof. intros a b. unfold sid_le. apply _. Defined.

(** [FROM sale s ... ORDER BY s.sid] *)
Definition sales_by_sid (d : database) : list (Z * sale_row) :=
  merge_sort sid_le (map_to_list (sale d)).

(** [SELECT s.sid, s.sdate, m.mname FROM sale s JOIN member m
     ON s.mid = m.mid ORDER BY s.sid] *)
Definition select_listing (d : database) : list (Z * string * string) :=
  omap (λ r : Z * sale_row,
          mname ← member d !! mid r.2;
          Some (r.1, sdate r.2, mname))
       (sales_by_sid d).

(** [SELECT ... FROM sale s JOIN member m ON s.mid = m.mid
     JOIN book b ON s.bid = b.bid ORDER BY s.sid] *)
Definition select_report (d : database)
  : list (Z * sale_row * string * book_row) :=
  omap (λ r : Z * sale_row,
          mname ← member d !! mid r.2;
          b ← book d !! bid r.2;
          Some (r.1, r.2, mname, b))
       (sales_by_sid d).

(** [SELECT s.sqty, b.bprice FROM sale s JOIN book b ON s.bid = b.bid
     WHERE s.sid = ?] *)
Definition select_qty_price (d : database) (sid : Z) : option (Z * Z) :=
  s ← sale d !! sid;
  b ← book d !! bid s;
  Some (sqty s, bprice b).

(** [SELECT bid, sqty FROM sale WHERE sid = ?] *)
Definition select_bid_qty (d : database) (sid : Z) : option (string * Z) :=
  s ← sale d !! sid;
  Some (bid s, sqty s).

(** [INSERT INTO sale (sdate, mid, bid, sqty, sdiscount, stotal)
     VALUES (?, ?, ?, ?, ?, ?)] *)
Definition insert_sale (r : sale_row) (d : database) : database :=
  Database (member d) (book d) (<[next_sid d := r]> (sale d)) (next_sid d).

(** [UPDATE book SET bstock = bstock + ? WHERE bid = ?] *)
Definition add_stock (n : Z) (b : string) (d : database) : database :=
  Database (member d)
    (alter (λ r, BookRow (btitle r) (bprice r) (bstock r + n)) b (book d))
    (sale d) (sale_seq d).

(** [UPDATE book SET bstock = bstock - ? WHERE bid = ?] *)
Definition sub_stock (n : Z) (b : string) (d : database) : database :=
  Database (member d)
    (alter (λ r, BookRow (btitle r) (bprice r) (bstock r - n)) b (book d))
    (sale d) (sale_seq d).

(** [UPDATE sale SET sdiscount = ?, stotal = ? WHERE sid = ?] *)
Definition set_discount (disc total sid : Z) (d : database) : database :=
  Database (member d) (book d)
    (alter (λ s, SaleRow (sdate s) (mid s) (bid s) (sqty s) disc total)
       sid (sale d))
    (sale_seq d).

(** [DELETE FROM sale WHERE sid = ?] *)
Definition delete_row (sid : Z) (d : database) : database :=
  Database (member d) (book d) (delete sid (sale d)) (sale_seq d).

(** ** The program *)

(** The parameters are the tuple [(mid,)]: one value for one
    placeholder. *)
Definition get_member_name (mid : string) : M (option string) :=
  execute 1 1 >>
  d <- get store;
  ret (member d !! mid).

(** The parameters are [(bid)], which is the string [bid] itself and
    not a tuple: [sqlite3] takes a [str] as the sequence of its
    characters, so it is given as many values as [bid] has characters.
    When that is one, the value bound is that character, that is,
    [bid]. *)
Definition get_book_info (bid : string) : M (option book_row) :=
  execute 1 (String.length bid) >>
  d <- get store;
  ret (book d !! bid).

Definition add_sale : M unit :=
  call (try_except
    (sdate <- input AskDate;
     when (negb (validate_date sdate)) (print ErrDateFormat >> return_) >>
     mid <- input AskMember;
     mname <- get_member_name mid;
     when (negb (truthy mname)) (print ErrNoMember >> return_) >>
     bid <- input AskBook;
     book_info <- get_book_info bid;
     book_info <- match book_info with
                  | None => print ErrNoBook >> return_
                  | Some info => ret info
                  end;
     sqty <- try_except
               (s <- input AskQty;
                sqty <- int s;
                when (sqty <=? 0) (print ErrQtyNotPositive >> return_) >>
                ret sqty)
               (λ e, match e with
                     | ValueError => Some (print ErrQtyNotInt >> return_)
                     | _ => None
                     end);
     when (bstock book_info <? sqty)
       (print (ErrStock (bstock book_info)) >> return_) >>
     sdiscount <- try_except
               (s <- input AskDiscount;
                sdiscount <- int s;
                when (sdiscount <? 0) (print ErrDiscountNegative >> return_) >>
                ret sdiscount)
               (λ e, match e with
                     | ValueError => Some (print ErrDiscountNotInt >> return_)
                     | _ => None
                     end);
     let stotal := bprice book_info * sqty - sdiscount in
     begin_transaction >>
     execute_dml 6 6 [sqty; sdiscount; stotal]
       (insert_sale (SaleRow sdate mid bid sqty sdiscount stotal)) >>
     execute_dml 2 2 [sqty] (sub_stock sqty bid) >>
     commit >>
     print (SaleAdded stotal))
    (λ e, match e with
          | Sqlite3Error s => Some (rollback >> print (DbError s))
          | _ => Some (rollback >> print (OtherError e))
          end)).

(** The block printed for one row of the report. *)
Definition report_block (sale : Z * sale_row * string * book_row) : output :=
  let '(sid, s, mname, b) := sale in
  ReportBlock sid (sdate s) mname (btitle b) (bprice b)
    (sqty s) (sdiscount s) (stotal s).

Definition print_sale_report : M unit :=
  call (try_except
    (execute 0 0 >>
     d <- get store;
     let sales := select_report d in
     when (bool_decide (sales = [])) (print NoSales >> return_) >>
     for_each sales (λ sale, print (report_block sale)))
    (λ e, match e with
          | Sqlite3Error s => Some (print (DbError s))
          | _ => None
          end)).

Definition list_sales : M (list (Z * string * string)) :=
  try_except
    (execute 0 0 >>
     d <- get store;
     ret (select_listing d))
    (λ e, match e with
          | Sqlite3Error s => Some (print (DbError s) >> ret [])
          | _ => None
          end).

(** The line printed for one entry of the selection menu. *)
Definition list_line (sale : nat * (Z * string * string)) : output :=
  let '(i, (sid, sdate, mname)) := sale in ListLine i sid mname sdate.

Definition print_listing (sales : list (Z * string * string)) : M unit :=
  print ListHeader >>
  for_each (enumerate 1 sales) (λ sale, print (list_line sale)) >>
  print ListFooter.

Definition update_sale : M unit :=
  call (
    sales <- list_sales;
    when (bool_decide (sales = [])) (print NothingToUpdate >> return_) >>
    print_listing sales >>
    choice <- input AskUpdateChoice;
    when (choice =? EmptyString)%string return_ >>
    try_except
      (choice <- int choice;
       when ((choice <? 1) || (choice >? Z.of_nat (length sales)))
         (print ErrChoice >> return_) >>
       row <- index sales (choice - 1);
       let sid := row.1.1 in
       new_discount <- try_except
               (s <- input AskNewDiscount;
                new_discount <- int s;
                when (new_discount <? 0) (print ErrDiscountNegative >> return_) >>
                ret new_discount)
               (λ e, match e with
                     | ValueError => Some (print ErrDiscountNotInt >> return_)
                     | _ => None
                     end);
       begin_transaction >>
       execute 1 1 >>
       d <- get store;
       sale_info <- match select_qty_price d sid with
                    | None => print ErrSaleNotFound >> rollback >> return_
                    | Some info => ret info
                    end;
       let new_total := sale_info.2 * sale_info.1 - new_discount in
       execute_dml 3 3 [new_discount; new_total]
         (set_discount new_discount new_total sid) >>
       commit >>
       print (SaleUpdated sid new_total))
      (λ e, match e with
            | ValueError => Some (print ErrChoice)
            | Sqlite3Error s => Some (rollback >> print (DbError s))
            | _ => None
            end)).

Definition delete_sale : M unit :=
  call (
    sales <- list_sales;
    when (bool_decide (sales = [])) (print NothingToDelete >> return_) >>
    print_listing sales >>
    choice <- input AskDeleteChoice;
    when (choice =? EmptyString)%string return_ >>
    try_except
      (choice <- int choice;
       when ((choice <? 1) || (choice >? Z.of_nat (length sales)))
         (print ErrChoice >> return_) >>
       row <- index sales (choice - 1);
       let sid := row.1.1 in
       confirm <- input (AskConfirm sid);
       when (negb (Str.lower confirm =? "y")%string)
         (print DeleteCancelled >> return_) >>
       begin_transaction >>
       execute 1 1 >>
       d <- get store;
       match select_bid_qty d sid with
       | Some sale_info =>
           execute_dml 2 2 [] (add_stock sale_info.2 sale_info.1) >>
           execute_dml 1 1 [] (delete_row sid)
       | None => ret tt
       end >>
       commit >>
       print (SaleDeleted sid))
      (λ e, match e with
            | ValueError => Some (print ErrChoice)
            | Sqlite3Error s => Some (rollback >> print (DbError s))
            | _ => None
            end)).

(** One turn of the [while True] loop of [main]: [true] when the loop
    goes round again, [false] on [break]. *)
Definition menu_body : M bool :=
  print Menu >>
  choice <- input AskMenu;
  let choice := Str.strip choice in
  if (choice =? EmptyString)%string then ret false
  else if (choice =? "1")%string then add_sale >> ret true
  else if (choice =? "2")%string then print_sale_report >> ret true
  else if (choice =? "3")%string then update_sale >> ret true
  else if (choice =? "4")%string then delete_sale >> ret true
  else if (choice =? "5")%string then ret false
  else print ErrMenuChoice >> ret true.

Fixpoint menu_loop (fuel : nat) : M unit :=
  match fuel with
  | O => ret tt
  | S fuel' => again <- menu_body; if again then menu_loop fuel' else ret tt
  end.

(** [with connect_db() as conn: body]: the connection commits when the
    body ends normally and rolls back when it raises. *)
Definition with_connection (body : M unit) : M unit :=
  storage_call >>
  λ w, match body w with
       | (Raised e, w') =>
           match rollback w' with (_, w'') => (Raised e, w'') end
       | (r, w') =>
           match commit w' with
           | (Raised e, w'') => (Raised e, w'')
           | (_, w'') => (r, w'')
           end
       end.

(** Each turn of the loop reads a line, so as many turns as there are
    lines to read, and one more, run the loop to its end. *)
Definition main : M unit := λ w,
  try_finally
    (try_except
       (with_connection (menu_loop (S (length (stdin w)))))
       (λ e, match e with
             | Sqlite3Error s => Some (print (ErrConnect s))
             | _ => Some (print (OtherError e))
             end))
    (print Goodbye) w.

(** A session in which nobody else writes to the database file. *)
Definition keyboard (l : list string) : list typed := (λ s, Typed s None) <$> l.

(** ** Running the program symbolically

    Every combinator unfolds once it is applied to a world, so [cbn]
    runs a handler up to the first test it cannot decide. *)

Arguments Nat.eqb : simpl nomatch.
Arguments set_store d w /.
Arguments set_snapshot s w /.
Arguments set_stdin i w /.
Arguments set_faults f w /.
Arguments emit o w /.
Arguments log e w /.
Arguments interfere !other d /.
Arguments ret {A} a w /.
Arguments bind {A B} m k w /.
Arguments raise {A} e w /.
Arguments return_ {A} w /.
Arguments when c m w /.
Arguments call body w /.
Arguments try_except {A} body handler w /.
Arguments try_finally {A} body final w /.
Arguments get {A} f w /.
Arguments modify f w /.
Arguments print o w /.
Arguments input p w /.
Arguments int s w /.
Arguments storage_call w /.
Arguments sql_error {A} e w /.
Arguments execute needed supplied w /.
Arguments open_transaction w /.
Arguments begin_transaction w /.
Arguments bind_parameters needed supplied ints w /.
Arguments execute_dml needed supplied ints f w /.
Arguments commit w /.
Arguments rollback w /.
Arguments get_member_name mid w /.
Arguments get_book_info bid w /.
Arguments keyboard l /.


(** ** Notions used by the statements *)

(** What a run from [w] to [w'] printed, and what it did to the store. *)
Definition printed (w w' : world) : list output :=
  drop (length (stdout w)) (stdout w').
Definition logged (w w' : world) : list sql_event :=
  drop (length (sqllog w)) (sqllog w').

(** The messages with which a handler gives up. *)
Definition is_refusal (o : output) : bool :=
  match o with
  | ErrDateFormat | ErrNoMember | ErrNoBook | ErrQtyNotPositive | ErrQtyNotInt
  | ErrStock _ | ErrDiscountNegative | ErrDiscountNotInt
  | ErrChoice | ErrSaleNotFound
  | DbError _ | OtherError _ => true
  | _ => false
  end.

(** [failed_in_transaction open l] is the store at the BEGIN of the
    first transaction of [l] inside which the storage layer raised an
    error; [open] is the transaction open before [l]. *)
Fixpoint failed_in_transaction (open : option database) (l : list sql_event)
  : option database :=
  match l with
  | [] => None
  | LogBegin d :: l' => failed_in_transaction (Some d) l'
  | LogCommit :: l' | LogRollback :: l' => failed_in_transaction None l'
  | LogError :: l' =>
      match open with
      | Some d => Some d
      | None => failed_in_transaction None l'
      end
  end.

(** Nobody else writes to the database file during the session. *)
Definition undisturbed (i : list typed) : Prop :=
  Forall (λ t, meanwhile t = None) i.

(** A small shop, used in the examples. *)
Definition shop : database :=
  Database {[ "M1" := "Alice" ]}
           {[ "B1" := BookRow "Rocq in practice" 100 10;
              "7" := BookRow "Seven proofs" 100 10 ]}
           ∅ 0.

(** The shop after three copies of book 7 were sold to Alice. *)
Definition shop_sold : database :=
  Database {[ "M1" := "Alice" ]}
           {[ "B1" := BookRow "Rocq in practice" 100 10;
              "7" := BookRow "Seven proofs" 100 7 ]}
           {[ 1 := SaleRow "2024-01-01" "M1" "7" 3 50 250 ]} 1.

Definition session (d : database) (l : list string) : world :=
  World d None (keyboard l) [] [] [].

(** A create-sale session in which the fifth storage call fails: the
    UPDATE of the stock, after BEGIN and the INSERT went through. *)
Definition faulty_session : world :=
  World shop None (keyboard ["2024-01-01"; "M1"; "7"; "3"; "50"]) []
        [false; false; false; false; true] [].

Definition faulty_session_end : world :=
  World shop None []
        [Prompt AskDate; Prompt AskMember; Prompt AskBook; Prompt AskQty;
         Prompt AskDiscount; DbError StorageFault]
        [] [LogBegin shop; LogError; LogRollback].

(** The end of the session in which the discount of sale 1 is changed
    to 20. *)
Definition update_session_end : world :=
  World (Database {[ "M1" := "Alice" ]}
           {[ "B1" := BookRow "Rocq in practice" 100 10;
              "7" := BookRow "Seven proofs" 100 7 ]}
           {[ 1 := SaleRow "2024-01-01" "M1" "7" 3 20 280 ]} 1)
        None []
        [ListHeader; ListLine 1 1 "Alice" "2024-01-01"; ListFooter;
         Prompt AskUpdateChoice; Prompt AskNewDiscount; SaleUpdated 1 280]
        [] [LogBegin shop_sold; LogCommit].

(** Run a handler as far as it goes. *)
Ltac run := cbn - [print_listing index for_each truthy bindable].

(** Case analysis on the innermost test that blocks evaluation. *)
Ltac case_step :=
  match goal with
  | |- context [match ?x with _ => _ end] =>
      lazymatch x with
      | context [match _ with _ => _ end] => fail
      | _ => destruct x eqn:?
      end
  end.

(** ** Notions used by the properties of whole runs *)

(** The copies of book [b] that one sale took out of the stock. *)
Definition copies (b : string) (s : sale_row) : Z :=
  if decide (bid s = b) then sqty s else 0.

(** The copies of book [b] that the sale table accounts for. *)
Definition sold (d : database) (b : string) : Z :=
  map_fold (λ _ s acc, copies b s + acc) 0 (sale d).

(** From [d] to [d'] no book was lost, renamed or repriced, and for
    every book the copies in stock and the copies sold add up to what
    they were. *)
Definition conserved (d d' : database) : Prop :=
  ∀ b row, book d !! b = Some row →
    ∃ row', book d' !! b = Some row' ∧
            btitle row' = btitle row ∧ bprice row' = bprice row ∧
            bstock row' + sold d' b = bstock row + sold d b.

(** No stock is negative and every sale is of at least one copy. *)
Definition sound (d : database) : Prop :=
  (∀ b row, book d !! b = Some row → 0 ≤ bstock row) ∧
  (∀ sid s, sale d !! sid = Some s → 0 < sqty s).

(** The three ways in which a handler changes the store. *)
Definition sale_recorded (d d' : database) : Prop :=
  ∃ sdate m b info q disc,
    validate_date sdate = true ∧
    truthy (member d !! m) = true ∧
    book d !! b = Some info ∧
    0 < q ≤ bstock info ∧ 0 ≤ disc ∧
    d' = sub_stock q b
           (insert_sale (SaleRow sdate m b q disc (bprice info * q - disc)) d).

Definition discount_changed (d d' : database) : Prop :=
  ∃ sid s b nd,
    sale d !! sid = Some s ∧ book d !! bid s = Some b ∧ 0 ≤ nd ∧
    bindable [nd; bprice b * sqty s - nd] = true ∧
    d' = set_discount nd (bprice b * sqty s - nd) sid d.

(** A discount for a sale of [d] that the UPDATE cannot bind: it, or
    the total it gives, is beyond 64 bits. *)
Definition discount_too_large (d : database) : Prop :=
  ∃ sid s b nd,
    sale d !! sid = Some s ∧ book d !! bid s = Some b ∧ 0 ≤ nd ∧
    bindable [nd; bprice b * sqty s - nd] = false.

Definition sale_removed (d d' : database) : Prop :=
  ∃ sid s,
    sale d !! sid = Some s ∧
    d' = delete_row sid (add_stock (sqty s) (bid s) d).

(** What every handler keeps: the member table, the copies of every
    book (in stock or sold), and the sanity of the figures. *)
Definition kept (d d' : database) : Prop :=
  member d' = member d ∧ conserved d d' ∧ (sound d → sound d').

(** What the selection menu of update and delete prints. *)
Definition listing_of (d : database) : list output :=
  ListHeader :: (list_line <$> enumerate 1 (select_listing d)) ++ [ListFooter].

(** Strictly ascending sale numbers. *)
Definition sid_lt (a b : Z * sale_row) : Prop := a.1 < b.1.

(** *** Dates as the prompt asks for them *)

(** The character of a decimal digit. *)
Definition digit (n : nat) : ascii := ascii_of_nat (48 + n).

Fixpoint digits_string (l : list nat) : string :=
  match l with
  | [] => EmptyString
  | n :: l' => String (digit n) (digits_string l')
  end.

(** [f"{n:02d}"] and [f"{n:04d}"] *)
Definition two_digits (n : nat) : string :=
  digits_string [n / 10; n mod 10]%nat.
Definition four_digits (n : nat) : string :=
  digits_string [n / 1000; (n / 100) mod 10; (n / 10) mod 10; n mod 10]%nat.

(** [f"{y:04d}-{m:02d}-{d:02d}"] *)
Definition iso_date (y m d : nat) : string :=
  (four_digits y ++ "-" ++ two_digits m ++ "-" ++ two_digits d)%string.

(** *** Further examples *)

(** The shop with a second member whose name was left empty. *)
Definition shop_nameless : database :=
  Database {[ "M1" := "Alice"; "M2" := EmptyString ]} (book shop) ∅ 0.

(** A session in which the query of the selection menu fails. *)
Definition broken_listing : world := World shop_sold None [] [] [true] [].



(** A session in which the database file cannot be opened. *)
Definition no_database : world := World shop None (keyboard ["5"]) [] [true] [].

(** ** Facts about the primitives *)

Lemma split_length sep s : length (Str.split sep s) = S (Str.count sep s).
Proof.
  induction s as [|a s IH]; simpl; [done|].
  destruct (Ascii.eqb a sep); simpl.
  - by rewrite IH.
  - destruct (Str.split sep s); simpl in *; congruence.
Qed.

(** [split] cuts at every separator and nowhere else: joining the
    tokens with the separator gives the string back, and no token
    contains the separator. *)
Lemma split_nonempty sep s : Str.split sep s ≠ [].
Proof.
  intros He. pose proof (split_length sep s) as Hl. by rewrite He in Hl.
Qed.

Lemma join_cons sep tok l :
  l ≠ [] → Str.join sep (tok :: l) = (tok ++ String sep (Str.join sep l))%string.
Proof. by destruct l. Qed.

Lemma join_split sep s : Str.join sep (Str.split sep s) = s.
Proof.
  induction s as [|a s IH]; [done|]. cbn [Str.split].
  pose proof (split_nonempty sep s) as Hne.
  destruct (Ascii.eqb a sep) eqn:E.
  - apply Ascii.eqb_eq in E as ->.
    rewrite join_cons by done. by rewrite IH.
  - destruct (Str.split sep s) as [|tok toks]; [done|].
    destruct toks as [|tok' toks].
    + cbn in *. by rewrite IH.
    + rewrite join_cons by done. rewrite join_cons in IH by done.
      by rewrite <- IH.
Qed.

Lemma split_tokens sep s tok :
  tok ∈ Str.split sep s → Str.count sep tok = 0%nat.
Proof.
  revert tok. induction s as [|a s IH]; intros tok; cbn [Str.split].
  - by intros ->%list_elem_of_singleton.
  - destruct (Ascii.eqb a sep) eqn:E.
    + intros [->|Hin]%elem_of_cons; [done|]. by apply IH.
    + destruct (Str.split sep s) as [|t ts].
      * intros ->%list_elem_of_singleton. cbn. by rewrite E.
      * intros [->|Hin]%elem_of_cons.
        -- cbn. rewrite E. cbn. apply IH. by left.
        -- apply IH. by right.
Qed.

Lemma max_sid_ge (t : gmap Z sale_row) k s : t !! k = Some s → k ≤ max_sid t.
Proof.
  unfold max_sid. revert k s.
  induction t as [|i x t Hi Hfold IH] using map_first_key_ind; intros k s.
  - by rewrite lookup_empty.
  - rewrite map_fold_insert_first_key by done.
    rewrite lookup_insert. case_decide as Hk.
    + intros _. subst. lia.
    + intros Hl. specialize (IH _ _ Hl). lia.
Qed.

Lemma next_sid_fresh d : sale d !! next_sid d = None.
Proof.
  destruct (sale d !! next_sid d) eqn:E; [|done].
  apply max_sid_ge in E. unfold next_sid in E. lia.
Qed.

Lemma alter_Some_insert {K A} `{Countable K} (f : A → A) (m : gmap K A) k x :
  m !! k = Some x → alter f k m = <[k := f x]> m.
Proof.
  intros Hk. apply map_eq. intros j.
  destruct (decide (k = j)) as [->|Hne].
  - by rewrite lookup_alter_eq, lookup_insert_eq, Hk.
  - by rewrite lookup_alter_ne, lookup_insert_ne.
Qed.

(** ** The date validator *)

Example validate_date_ex1 : validate_date "2024-01-15" = true.
Proof. reflexivity. Qed.
Example validate_date_ex2 : validate_date "2024-13-01" = false.
Proof. reflexivity. Qed.
Example validate_date_ex3 : validate_date "2024/01/01" = false.
Proof. reflexivity. Qed.
Example validate_date_ex4 : validate_date "abc" = false.
Proof. reflexivity. Qed.
Example py_int_ex :
  Str.py_int <$> [" 12 "; "-7"; "+3"; "1_000"; "007";
                  "1__0"; "+"; EmptyString; "- 5"; "_1"; "1_"; "12a"]
  = [Some 12; Some (-7); Some 3; Some 1000; Some 7;
     None; None; None; None; None; None; None].
Proof. reflexivity. Qed.
Example split_ex :
  Str.split "-" "a-b-" = ["a"; "b"; EmptyString] ∧
  Str.split "-" EmptyString = [EmptyString] ∧
  Str.count "-" "--" = 2%nat.
Proof. done. Qed.
Example strip_lower_ex : Str.strip "  4 " = "4" ∧ Str.lower "Y" = "y".
Proof. done. Qed.


(** C8. [validate_date s] is true exactly when [s] has ten characters
    and two hyphens, its three hyphen-separated tokens all parse as
    integers, the month is in 1..12 and the day in 1..31.  The length
    of the month and leap years play no part: 31 and 29 February
    pass. *)
Theorem validate_date_contract :
  (∀ s, validate_date s = true ↔ validate_date_spec s) ∧
  validate_date "2023-02-31" = true ∧
  validate_date "2023-02-29" = true.
Proof.
  split; [|by split].
  intros s. unfold validate_date, validate_date_spec. split.
  - destruct (Nat.eqb_spec (String.length s) 10) as [Hl|]; [|done].
    destruct (Nat.eqb_spec (Str.count "-" s) 2) as [Hc|]; [|done].
    simpl.
    destruct (Str.py_int <$> Str.split "-" s)
      as [|[y|] [|[m|] [|[d|] [|? ?]]]]; try done.
    rewrite !Z.gtb_ltb.
    destruct (Z.ltb_spec m 1), (Z.ltb_spec 12 m),
             (Z.ltb_spec d 1), (Z.ltb_spec 31 d); simpl; try done.
    intros _. split; [done|]. split; [done|].
    exists y, m, d. repeat split; lia.
  - intros (Hl & Hc & y & m & d & Heq & Hm & Hd).
    rewrite Hl, Hc, Heq. simpl. rewrite !Z.gtb_ltb.
    destruct (Z.ltb_spec m 1), (Z.ltb_spec 12 m),
             (Z.ltb_spec d 1), (Z.ltb_spec 31 d); simpl; try done; lia.
Qed.

(** ** Creating a sale *)





(** C2. When the quantity typed at a create-sale run is a positive
    integer above the stock of the book it refers to, the run ends
    with a refusal as its last message and mutates nothing: the store
    is the one it started from and no transaction is open.  When the
    earlier validations pass, the refusal is the insufficient-stock
    message and the discount is never asked. *)
Theorem add_sale_insufficient_stock w sdate_s mid_s bid_s qty_s rest q b :
  snapshot w = None →
  stdin w = keyboard [sdate_s; mid_s; bid_s; qty_s] ++ rest →
  book (store w) !! bid_s = Some b →
  Str.py_int qty_s = Some q → 0 < q → bstock b < q →
  ∃ w',
    add_sale w = (Normal tt, w') ∧
    store w' = store w ∧ snapshot w' = None ∧
    (∃ msg, last (stdout w') = Some msg ∧ is_refusal msg = true) ∧
    (faults w = [] → validate_date sdate_s = true →
     truthy (member (store w) !! mid_s) = true →
     String.length bid_s = 1%nat →
     stdin w' = rest ∧
     stdout w' = stdout w ++ [Prompt AskDate; Prompt AskMember; Prompt AskBook;
                              Prompt AskQty; ErrStock (bstock b)]).
Proof.
  intros Hs Hi Hb Hq Hq0 Hlt.
  destruct w as [d0 snap inp out fl lg]. cbn in Hs, Hi, Hb. subst.
  unfold add_sale. cbn - [truthy].
  repeat (first [rewrite Hb | rewrite Hq | case_step]; cbn - [truthy]).
  all: try lia.
  all: eexists; split; [reflexivity|]; cbn - [truthy].
  all: split; [done|]; split; [done|].
  all: split; [eexists; split; [apply last_snoc|done]|].
  all: intros Hf Hd Hm Hl; try discriminate Hf.
  all: try (rewrite Hd in *; discriminate).
  all: try (rewrite Hm in *; discriminate).
  all: try (rewrite Hl in *; discriminate).
  split; [done | by rewrite <- !app_assoc].
Qed.

Lemma add_sale_insufficient_stock_witness :
  ∃ w', add_sale (session shop ["2024-01-01"; "M1"; "7"; "11"]) = (Normal tt, w') ∧
        store w' = shop ∧
        last (stdout w') = Some (ErrStock 10).
Proof.
  destruct (add_sale_insufficient_stock
              (session shop ["2024-01-01"; "M1"; "7"; "11"])
              "2024-01-01" "M1" "7" "11" [] 11 (BookRow "Seven proofs" 100 10))
    as (w' & Hrun & Hstore & _ & _ & Hout);
    [reflexivity | reflexivity | reflexivity | reflexivity | lia | simpl; lia |].
  exists w'. split; [exact Hrun|]. split; [exact Hstore|].
  destruct Hout as [_ Hout]; [reflexivity..|].
  rewrite Hout. reflexivity.
Defined.

(** ** Facts about listings and reports *)

Lemma emit_emit o1 o2 w : emit o2 (emit o1 w) = emit (o1 ++ o2) w.
Proof. destruct w. cbn. by rewrite app_assoc. Qed.

Lemma emit_nil w : emit [] w = w.
Proof. destruct w. cbn. by rewrite app_nil_r. Qed.

Lemma for_each_print {A} (f : A → output) l w :
  for_each l (λ x, print (f x)) w = (Normal tt, emit (f <$> l) w).
Proof.
  revert w. induction l as [|x l IH]; intros [d s i o fl lg]; cbn.
  - by rewrite app_nil_r.
  - rewrite IH. cbn. by rewrite <- app_assoc.
Qed.

Lemma print_listing_run sales w :
  print_listing sales w =
    (Normal tt,
     emit (ListHeader :: (list_line <$> enumerate 1 sales) ++ [ListFooter]) w).
Proof.
  destruct w as [d s i o fl lg].
  unfold print_listing. cbn. rewrite for_each_print. cbn.
  by rewrite <- !app_assoc.
Qed.

Lemma index_run {A} (l : list A) i x w :
  0 ≤ i → l !! Z.to_nat i = Some x → index l i w = (Normal x, w).
Proof.
  intros Hi Hx. assert ((i <? 0) = false) as E by lia.
  unfold index. rewrite E. cbn zeta. by rewrite E, Hx.
Qed.

Lemma sid_le_total : Total sid_le.
Proof. intros a b. unfold sid_le. lia. Qed.

Lemma sales_by_sid_sorted d : Sorted sid_le (sales_by_sid d).
Proof. apply (@Sorted_merge_sort _ sid_le _ sid_le_total). Qed.

Lemma sales_by_sid_elem d sid s :
  (sid, s) ∈ sales_by_sid d ↔ sale d !! sid = Some s.
Proof.
  unfold sales_by_sid. rewrite merge_sort_Permutation.
  apply elem_of_map_to_list.
Qed.

Lemma select_listing_elem d sid sd mn :
  (sid, sd, mn) ∈ select_listing d → is_Some (sale d !! sid).
Proof.
  unfold select_listing. rewrite list_elem_of_omap.
  intros ([k s] & Hin & Hrow). apply sales_by_sid_elem in Hin.
  cbn in Hrow. destruct (member d !! mid s); simplify_eq/=. eauto.
Qed.

Lemma select_report_elem d sid s mn b :
  (sid, s, mn, b) ∈ select_report d → sale d !! sid = Some s.
Proof.
  unfold select_report. rewrite list_elem_of_omap.
  intros ([k s'] & Hin & Hrow). apply sales_by_sid_elem in Hin.
  cbn in Hrow.
  destruct (member d !! mid s'); simplify_eq/=.
  destruct (book d !! bid s'); simplify_eq/=. done.
Qed.

Lemma select_report_empty d : sale d = ∅ → select_report d = [].
Proof.
  intros He. unfold select_report, sales_by_sid. rewrite He.
  by rewrite map_to_list_empty.
Qed.

Lemma printed_emit o w : printed w (emit o w) = o.
Proof. destruct w. unfold printed. cbn. by rewrite drop_app_length. Qed.

Lemma print_sale_report_run w :
  faults w = [] →
  print_sale_report w =
    (Normal tt,
     emit (if bool_decide (select_report (store w) = []) then [NoSales]
           else report_block <$> select_report (store w)) w).
Proof.
  destruct w as [d s i o fl lg]. cbn. intros ->.
  unfold print_sale_report. cbn.
  case_bool_decide; cbn; [done|].
  by rewrite for_each_print.
Qed.

Lemma list_sales_run w :
  faults w = [] → list_sales w = (Normal (select_listing (store w)), w).
Proof.
  destruct w as [d s i o fl lg]. cbn. intros ->. done.
Qed.

(** Lay out every path of a handler. *)
Ltac explore :=
  repeat (first [ rewrite print_listing_run
                | rewrite for_each_print
                | progress unfold index
                | progress change (bindable []) with true
                | case_step ];
          run).

Lemma drop_self {A} (l : list A) : drop (length l) l = [].
Proof. by apply drop_all. Qed.

(** ** The sale report *)

(** C9. A report run over a store whose join of sale, member and book
    has no row (as it is when the sale table is empty) prints the one
    message [NoSales], changes nothing else in the world and returns
    normally; a run over a non-empty join prints its blocks, none of
    which is that message. *)
Theorem report_no_records w :
  faults w = [] →
  (sale (store w) = ∅ → select_report (store w) = []) ∧
  (select_report (store w) = [] →
   print_sale_report w = (Normal tt, emit [NoSales] w)) ∧
  (select_report (store w) ≠ [] →
   print_sale_report w =
     (Normal tt, emit (report_block <$> select_report (store w)) w) ∧
   NoSales ∉ report_block <$> select_report (store w)).
Proof.
  intros Hf. split; [apply select_report_empty|].
  rewrite print_sale_report_run by done. split.
  - intros ->. done.
  - intros Hne. rewrite bool_decide_eq_false_2 by done. split; [done|].
    rewrite list_elem_of_fmap. intros ([[[sid s] mn] b] & Heq & _).
    discriminate Heq.
Qed.

Lemma report_no_records_witness :
  print_sale_report (session shop []) =
    (Normal tt, emit [NoSales] (session shop [])).
Proof.
  apply (report_no_records (session shop [])); reflexivity.
Defined.

(** ** The book lookup *)

Lemma get_book_info_run bid w :
  faults w = [] →
  get_book_info bid w =
    if (1 =? String.length bid)%nat
    then (Normal (book (store w) !! bid), w)
    else (Raised (Sqlite3Error ProgrammingError), log LogError w).
Proof.
  destruct w as [d s i o fl lg]. cbn. intros ->.
  by destruct (1 =? String.length bid)%nat.
Qed.

(** C3 does not hold of the code.  The lookup passes the book id
    itself, a string, where a one-element tuple is meant, so the id is
    bound character by character: for the two-character id [B1] of an
    existing book the statement wants one parameter and gets two, the
    lookup raises, and [add_sale] reports a database error without ever
    asking for the quantity. *)
Theorem get_book_info_existing_book_raises :
  book shop !! "B1" = Some (BookRow "Rocq in practice" 100 10) ∧
  get_book_info "B1" (session shop []) =
    (Raised (Sqlite3Error ProgrammingError), log LogError (session shop [])) ∧
  add_sale (session shop ["2024-01-01"; "M1"; "B1"; "3"; "50"]) =
    (Normal tt,
     World shop None (keyboard ["3"; "50"])
       [Prompt AskDate; Prompt AskMember; Prompt AskBook;
        DbError ProgrammingError]
       [] [LogError]).
Proof. repeat split. Qed.

(** ** Deleting and updating a sale *)

Lemma py_int_nonempty s n : Str.py_int s = Some n → (s =? EmptyString)%string = false.
Proof. by destruct s. Qed.

Lemma lookup_nonempty {A} (l : list A) i x :
  l !! i = Some x → bool_decide (l = []) = false.
Proof. intros Hl. apply bool_decide_eq_false_2. by intros ->. Qed.

Lemma choice_in_range {A} (l : list A) n x :
  1 ≤ n → l !! Z.to_nat (n - 1) = Some x →
  (n <? 1) || (n >? Z.of_nat (length l)) = false.
Proof.
  intros Hn Hl. apply lookup_lt_Some in Hl.
  rewrite Z.gtb_ltb. apply orb_false_intro; lia.
Qed.

Lemma listing_misses d sid row :
  sale d !! sid = None → row ∈ select_listing d → row.1.1 ≠ sid.
Proof.
  intros Hnone Hin <-. destruct row as [[k sd] mn].
  apply select_listing_elem in Hin. cbn in Hnone.
  rewrite Hnone in Hin. by destruct Hin.
Qed.

Lemma report_misses w w' sid a b c e f g h :
  faults w = [] → sale (store w) !! sid = None →
  print_sale_report w = (Normal tt, w') →
  ReportBlock sid a b c e f g h ∉ printed w w'.
Proof.
  intros Hf Hnone Hrun. rewrite print_sale_report_run in Hrun by done.
  apply (f_equal snd) in Hrun. cbn [snd] in Hrun. subst w'.
  rewrite printed_emit.
  case_bool_decide as He.
  - by intros ?%list_elem_of_singleton.
  - rewrite list_elem_of_fmap. intros ([[[k s] mn] bk] & Heq & Hin).
    cbn in Heq. injection Heq as <- _ _ _ _ _ _ _.
    apply select_report_elem in Hin. congruence.
Qed.

(** C4. A confirmed delete of a sale that is still in the sale table
    when the transaction runs adds the quantity of that sale to the
    stock of the book it refers to (and touches no other book row),
    removes the row from the sale table, commits, and the sale is
    absent from the selection list and from the report afterwards. *)
Theorem delete_sale_restores_stock
    w choice_s o1 confirm_s o2 rest n sid sd mn s :
  snapshot w = None →
  faults w = [] →
  stdin w = Typed choice_s o1 :: Typed confirm_s o2 :: rest →
  Str.py_int choice_s = Some n → 1 ≤ n →
  select_listing (store w) !! Z.to_nat (n - 1) = Some (sid, sd, mn) →
  Str.lower confirm_s = "y" →
  let d := interfere o2 (interfere o1 (store w)) in
  sale d !! sid = Some s →
  ∃ w',
    delete_sale w = (Normal tt, w') ∧
    sale (store w') = delete sid (sale d) ∧
    book (store w') =
      alter (λ r, BookRow (btitle r) (bprice r) (bstock r + sqty s))
        (bid s) (book d) ∧
    (∀ b, book d !! bid s = Some b →
          book (store w') !! bid s =
            Some (BookRow (btitle b) (bprice b) (bstock b + sqty s))) ∧
    member (store w') = member d ∧
    snapshot w' = None ∧
    last (stdout w') = Some (SaleDeleted sid) ∧
    (∃ rows, list_sales w' = (Normal rows, w') ∧
             ∀ row, row ∈ rows → row.1.1 ≠ sid) ∧
    (∃ w'', print_sale_report w' = (Normal tt, w'') ∧
            ∀ a b c e f g h, ReportBlock sid a b c e f g h ∉ printed w' w'').
Proof.
  intros Hs Hf Hi Hc Hn Hrow Hy d Hsale.
  destruct w as [d0 snap inp out fl lg]. cbn in Hs, Hf, Hi, Hrow, d. subst.
  unfold delete_sale. run.
  rewrite (lookup_nonempty _ _ _ Hrow). run.
  rewrite print_listing_run. run.
  rewrite (py_int_nonempty _ _ Hc). run. rewrite Hc. run.
  rewrite (choice_in_range _ _ _ Hn Hrow). run.
  erewrite index_run by (lia || exact Hrow). run.
  rewrite Hy. run.
  unfold select_bid_qty. fold d. rewrite Hsale. run.
  eexists. split; [reflexivity|]. cbn - [list_sales print_sale_report printed].
  split; [done|]. split; [done|].
  split; [intros b Hb; by rewrite lookup_alter_eq, Hb|].
  split; [done|]. split; [done|].
  split; [apply last_snoc|].
  split.
  - eexists. split; [by rewrite list_sales_run|]. cbn.
    intros row. apply listing_misses. cbn. apply lookup_delete_eq.
  - eexists. split; [by rewrite print_sale_report_run|].
    intros a b c e f g h.
    apply report_misses; [done| cbn; apply lookup_delete_eq |].
    by rewrite print_sale_report_run.
Qed.

Lemma delete_sale_restores_stock_witness :
  ∃ w', delete_sale (session shop_sold ["1"; "Y"]) = (Normal tt, w') ∧
        bstock <$> book (store w') !! "7" = Some 10 ∧
        sale (store w') !! 1 = None.
Proof.
  destruct (delete_sale_restores_stock (session shop_sold ["1"; "Y"])
              "1" None "Y" None [] 1 1 "2024-01-01" "Alice"
              (SaleRow "2024-01-01" "M1" "7" 3 50 250))
    as (w' & Hrun & Hsale & _ & Hbook & _);
    [reflexivity | reflexivity | reflexivity | reflexivity | lia
    | reflexivity | reflexivity | reflexivity |].
  exists w'. split; [exact Hrun|]. split.
  - pose proof (Hbook (BookRow "Seven proofs" 100 7) eq_refl) as Hb.
    cbn in Hb. rewrite Hb. reflexivity.
  - rewrite Hsale. reflexivity.
Defined.

(** C6. A confirmed delete whose sale is no longer in the sale table
    when the transaction runs skips the stock update and the delete,
    commits all the same, reports the sale as deleted and surfaces no
    error; the store is left exactly as the transaction found it. *)
Theorem delete_sale_missing_row
    w choice_s o1 confirm_s o2 rest n sid sd mn :
  snapshot w = None →
  faults w = [] →
  stdin w = Typed choice_s o1 :: Typed confirm_s o2 :: rest →
  Str.py_int choice_s = Some n → 1 ≤ n →
  select_listing (store w) !! Z.to_nat (n - 1) = Some (sid, sd, mn) →
  Str.lower confirm_s = "y" →
  let d := interfere o2 (interfere o1 (store w)) in
  sale d !! sid = None →
  ∃ w',
    delete_sale w = (Normal tt, w') ∧
    store w' = d ∧
    snapshot w' = None ∧
    logged w w' = [LogBegin d; LogCommit] ∧
    printed w w' =
      ListHeader :: (list_line <$> enumerate 1 (select_listing (store w))) ++
      [ListFooter; Prompt AskDeleteChoice; Prompt (AskConfirm sid);
       SaleDeleted sid] ∧
    Forall (λ o, is_refusal o = false) (printed w w').
Proof.
  intros Hs Hf Hi Hc Hn Hrow Hy d Hsale.
  destruct w as [d0 snap inp out fl lg]. cbn in Hs, Hf, Hi, Hrow, d. subst.
  unfold delete_sale. run.
  rewrite (lookup_nonempty _ _ _ Hrow). run.
  rewrite print_listing_run. run.
  rewrite (py_int_nonempty _ _ Hc). run. rewrite Hc. run.
  rewrite (choice_in_range _ _ _ Hn Hrow). run.
  erewrite index_run by (lia || exact Hrow). run.
  rewrite Hy. run.
  unfold select_bid_qty. fold d. rewrite Hsale. run.
  eexists. split; [reflexivity|]. unfold logged, printed. cbn.
  split; [done|]. split; [done|].
  split; [by rewrite <- !app_assoc, drop_app_length|].
  assert (drop (length out)
            ((((out ++ ListHeader :: (list_line <$> enumerate 1 (select_listing d0))
                    ++ [ListFooter]) ++ [Prompt AskDeleteChoice])
               ++ [Prompt (AskConfirm sid)]) ++ [SaleDeleted sid])
          = ListHeader :: (list_line <$> enumerate 1 (select_listing d0)) ++
            [ListFooter; Prompt AskDeleteChoice; Prompt (AskConfirm sid);
             SaleDeleted sid]) as ->.
  { rewrite <- !app_assoc, drop_app_length. cbn. by rewrite <- !app_assoc. }
  split; [done|].
  constructor; [done|]. apply Forall_app. split.
  - apply Forall_fmap, Forall_forall. by intros [i [[k a] b]] _.
  - by repeat constructor.
Qed.

Lemma delete_sale_missing_row_witness :
  ∃ w', delete_sale (World shop_sold None
                       [Typed "1" None; Typed "y" (Some shop)] [] [] [])
          = (Normal tt, w') ∧
        store w' = shop ∧
        last (stdout w') = Some (SaleDeleted 1).
Proof.
  destruct (delete_sale_missing_row
              (World shop_sold None [Typed "1" None; Typed "y" (Some shop)] [] [] [])
              "1" None "y" (Some shop) [] 1 1 "2024-01-01" "Alice")
    as (w' & Hrun & Hstore & _ & _ & Hout & _);
    [reflexivity | reflexivity | reflexivity | reflexivity | lia
    | reflexivity | reflexivity | reflexivity |].
  exists w'. split; [exact Hrun|]. split; [exact Hstore|].
  unfold printed in Hout. cbn in Hout. rewrite drop_0 in Hout.
  rewrite Hout. reflexivity.
Defined.

(** With a valid selection, a non-negative integer discount and a
    storage layer that works, an update-sale run goes through when the
    sale and its book are there as the transaction reads them and the
    discount and the new total fit in 64 bits. *)
Lemma update_sale_succeeds
    w choice_s o1 disc_s o2 rest n sid sd mn nd s b :
  snapshot w = None →
  faults w = [] →
  stdin w = Typed choice_s o1 :: Typed disc_s o2 :: rest →
  Str.py_int choice_s = Some n → 1 ≤ n →
  select_listing (store w) !! Z.to_nat (n - 1) = Some (sid, sd, mn) →
  Str.py_int disc_s = Some nd → 0 ≤ nd →
  let d := interfere o2 (interfere o1 (store w)) in
  sale d !! sid = Some s →
  book d !! bid s = Some b →
  let total := bprice b * sqty s - nd in
  bindable [nd; total] = true →
  ∃ w',
    update_sale w = (Normal tt, w') ∧
    sale (store w') =
      <[sid := SaleRow (sdate s) (mid s) (bid s) (sqty s) nd total]> (sale d) ∧
    book (store w') = book d ∧
    member (store w') = member d ∧
    snapshot w' = None ∧
    last (stdout w') = Some (SaleUpdated sid total).
Proof.
  intros Hs Hf Hi Hc Hn Hrow Hd Hnd d Hsale Hbook total Hfit.
  destruct w as [d0 snap inp out fl lg]. cbn in Hs, Hf, Hi, Hrow, d. subst.
  unfold update_sale. run.
  rewrite (lookup_nonempty _ _ _ Hrow). run.
  rewrite print_listing_run. run.
  rewrite (py_int_nonempty _ _ Hc). run. rewrite Hc. run.
  rewrite (choice_in_range _ _ _ Hn Hrow). run.
  erewrite index_run by (lia || exact Hrow). run.
  rewrite Hd. run. replace (nd <? 0) with false by lia. run.
  unfold select_qty_price. fold d. rewrite Hsale. run. rewrite Hbook. run.
  fold total. rewrite Hfit. run.
  eexists. split; [reflexivity|]. cbn.
  split; [by erewrite alter_Some_insert by exact Hsale|].
  split; [done|]. split; [done|]. split; [done|].
  apply last_snoc.
Qed.

(** C10. An update-sale run whose sale is no longer in the sale table
    when the transaction reads it prints the not-found error, rolls the
    transaction back and leaves the store exactly as the transaction
    found it. *)
Theorem update_sale_missing_row
    w choice_s o1 disc_s o2 rest n sid sd mn nd :
  snapshot w = None →
  faults w = [] →
  stdin w = Typed choice_s o1 :: Typed disc_s o2 :: rest →
  Str.py_int choice_s = Some n → 1 ≤ n →
  select_listing (store w) !! Z.to_nat (n - 1) = Some (sid, sd, mn) →
  Str.py_int disc_s = Some nd → 0 ≤ nd →
  let d := interfere o2 (interfere o1 (store w)) in
  sale d !! sid = None →
  ∃ w',
    update_sale w = (Normal tt, w') ∧
    store w' = d ∧
    snapshot w' = None ∧
    logged w w' = [LogBegin d; LogRollback] ∧
    last (stdout w') = Some ErrSaleNotFound.
Proof.
  intros Hs Hf Hi Hc Hn Hrow Hd Hnd d Hsale.
  destruct w as [d0 snap inp out fl lg]. cbn in Hs, Hf, Hi, Hrow, d. subst.
  unfold update_sale. run.
  rewrite (lookup_nonempty _ _ _ Hrow). run.
  rewrite print_listing_run. run.
  rewrite (py_int_nonempty _ _ Hc). run. rewrite Hc. run.
  rewrite (choice_in_range _ _ _ Hn Hrow). run.
  erewrite index_run by (lia || exact Hrow). run.
  rewrite Hd. run. replace (nd <? 0) with false by lia. run.
  unfold select_qty_price. fold d. rewrite Hsale. run.
  eexists. split; [reflexivity|]. unfold logged. cbn.
  split; [done|]. split; [done|].
  split; [by rewrite <- !app_assoc, drop_app_length|].
  apply last_snoc.
Qed.

Lemma update_sale_missing_row_witness :
  ∃ w', update_sale (World shop_sold None
                       [Typed "1" None; Typed "20" (Some shop)] [] [] [])
          = (Normal tt, w') ∧
        store w' = shop ∧
        last (stdout w') = Some ErrSaleNotFound.
Proof.
  destruct (update_sale_missing_row
              (World shop_sold None [Typed "1" None; Typed "20" (Some shop)] [] [] [])
              "1" None "20" (Some shop) [] 1 1 "2024-01-01" "Alice" 20)
    as (w' & Hrun & Hstore & _ & _ & Hout);
    [reflexivity | reflexivity | reflexivity | reflexivity | lia
    | reflexivity | reflexivity | lia | reflexivity |].
  exists w'. split; [exact Hrun|]. split; [exact Hstore|]. exact Hout.
Defined.

Lemma select_qty_price_Some d sid p :
  select_qty_price d sid = Some p →
  ∃ s b, sale d !! sid = Some s ∧ book d !! bid s = Some b ∧
         p = (sqty s, bprice b).
Proof.
  unfold select_qty_price. intros Hp.
  destruct (sale d !! sid) as [s|] eqn:Hs; [|done]. cbn in Hp.
  destruct (book d !! bid s) as [b|] eqn:Hb; [|done]. cbn in Hp.
  exists s, b. injection Hp as <-. done.
Qed.

Lemma last_printed {A} (out Y : list A) m :
  (length out ≤ length Y)%nat →
  last (drop (length out) (Y ++ [m])) = Some m.
Proof. intros Hle. rewrite drop_app_le by done. apply last_snoc. Qed.

(** C5. Every update-sale run that reports success has changed the
    discount and the total of the selected sale and nothing else.  The
    sale it reports and changes is the one selected: the number typed
    at the selection prompt is an integer [n] from 1 on, and the sale
    is the [n]-th entry of the menu that [list_sales] gave for the
    store the run started from.  The other fields of that sale (its
    quantity among them), every other sale, the book table with every
    stock, and the member table are as the transaction found them.
    The new total is the unit price the book has at that moment times
    the quantity of the sale, minus the discount typed in. *)
Theorem update_sale_discount_only w r w' sid total :
  update_sale w = (r, w') →
  last (printed w w') = Some (SaleUpdated sid total) →
  ∃ d s b nd c1 c2 rest n sd mn,
    stdin w = c1 :: c2 :: rest ∧
    Str.py_int (line c1) = Some n ∧ 1 ≤ n ∧
    select_listing (store w) !! Z.to_nat (n - 1) = Some (sid, sd, mn) ∧
    Str.py_int (line c2) = Some nd ∧ 0 ≤ nd ∧
    logged w w' = [LogBegin d; LogCommit] ∧
    sale d !! sid = Some s ∧
    book d !! bid s = Some b ∧
    total = bprice b * sqty s - nd ∧
    sale (store w') =
      <[sid := SaleRow (sdate s) (mid s) (bid s) (sqty s) nd total]> (sale d) ∧
    book (store w') = book d ∧
    member (store w') = member d ∧
    r = Normal tt ∧ snapshot w' = None ∧
    (undisturbed (stdin w) → d = store w).
Proof.
  destruct w as [d0 snap inp out fl lg].
  unfold update_sale, list_sales, printed, logged. run. explore.
  all: intros [= <- <-]; cbn [sqllog stdout store snapshot stdin].
  all: try (rewrite last_printed by (rewrite ?length_app; cbn; lia)).
  all: try discriminate.
  all: intros [= <- <-].
  all: match goal with
       | H : _ || _ = false |- _ => apply orb_false_elim in H as [? ?]
       end.
  all: try (exfalso; lia).
  all: match goal with
       | Hp : select_qty_price ?D _ = Some _,
         Hc : Str.py_int (line ?c1) = Some ?n,
         Hrow : select_listing _ !! Z.to_nat (?n - 1) = Some ?row,
         Hd : Str.py_int (line ?c2) = Some ?nd,
         Hn : (?nd <? 0) = false |- _ =>
           let sl := fresh "sl" in
           let bk := fresh "bk" in
           apply select_qty_price_Some in Hp as (sl & bk & ? & ? & ->);
           destruct row as [[? ?sd] ?mn];
           exists D, sl, bk, nd, c1, c2; eexists _, n, _, _
       end.
  all: cbn [fst snd] in *.
  all: split; [reflexivity|]; split; [done|]; split; [lia|].
  all: split; [eassumption|]; split; [done|]; split; [lia|].
  all: split; [by rewrite <- app_assoc, drop_app_length|].
  all: split; [done|]; split; [done|]; split; [done|].
  all: cbn; split; [by erewrite alter_Some_insert by eassumption|].
  all: split; [done|]; split; [done|]; split; [done|]; split; [done|].
  all: intros Hq; unfold undisturbed in Hq.
  all: repeat (let Hm := fresh "Hm" in
               apply Forall_cons in Hq as [Hm Hq]; rewrite Hm).
  all: done.
Qed.

Lemma update_sale_discount_only_witness :
  ∃ d s b nd n sd mn,
    Str.py_int "1" = Some n ∧
    select_listing shop_sold !! Z.to_nat (n - 1) = Some (1, sd, mn) ∧
    sale d !! 1 = Some s ∧ book d !! bid s = Some b ∧
    280 = bprice b * sqty s - nd ∧
    book (store update_session_end) = book d.
Proof.
  destruct (update_sale_discount_only (session shop_sold ["1"; "20"])
              (Normal tt) update_session_end 1 280)
    as (d & s & b & nd & c1 & c2 & rest & n & sd & mn
        & Hin & Hc & _ & Hrow & _ & _ & _ & Hs & Hb & Ht & _ & Hbook & _).
  - reflexivity.
  - reflexivity.
  - injection Hin as <- _ _.
    exists d, s, b, nd, n, sd, mn. split; [exact Hc|]. split; [exact Hrow|].
    split; [exact Hs|]. split; [exact Hb|].
    split; [exact Ht|]. exact Hbook.
Defined.

(** ** Storage errors inside a transaction *)

(** Once every path of a handler is laid out, the paths on which no
    error was logged inside a transaction are dismissed and the others
    are read off. *)
Ltac read_off :=
  intros [= <- <-]; cbn [sqllog stdout store snapshot stdin];
  let H := fresh "H" in
  intros H;
  rewrite <- ?app_assoc, ?drop_app_length, ?drop_self in H; cbn in H;
  first
    [ discriminate H
    | injection H as <-;
      split; [done|]; split; [done|]; split; [done|];
      split; [eexists; apply last_snoc|];
      let Hq := fresh "Hq" in
      intros Hq; unfold undisturbed in Hq;
      repeat (let Hm := fresh "Hm" in
              apply Forall_cons in Hq as [Hm Hq]; rewrite Hm);
      done ].

Lemma add_sale_storage_error w r w' d :
  add_sale w = (r, w') →
  failed_in_transaction None (logged w w') = Some d →
  r = Normal tt ∧ store w' = d ∧ snapshot w' = None ∧
  (∃ e, last (stdout w') = Some (DbError e)) ∧
  (undisturbed (stdin w) → d = store w).
Proof.
  destruct w as [d0 snap inp out fl lg].
  unfold add_sale, logged. run. explore.
  all: read_off.
Qed.

Lemma update_sale_storage_error w r w' d :
  update_sale w = (r, w') →
  failed_in_transaction None (logged w w') = Some d →
  r = Normal tt ∧ store w' = d ∧ snapshot w' = None ∧
  (∃ e, last (stdout w') = Some (DbError e)) ∧
  (undisturbed (stdin w) → d = store w).
Proof.
  destruct w as [d0 snap inp out fl lg].
  unfold update_sale, list_sales, logged. run. explore.
  all: read_off.
Qed.

Lemma delete_sale_storage_error w r w' d :
  delete_sale w = (r, w') →
  failed_in_transaction None (logged w w') = Some d →
  r = Normal tt ∧ store w' = d ∧ snapshot w' = None ∧
  (∃ e, last (stdout w') = Some (DbError e)) ∧
  (undisturbed (stdin w) → d = store w).
Proof.
  destruct w as [d0 snap inp out fl lg].
  unfold delete_sale, list_sales, logged. run. explore.
  all: read_off.
Qed.

Lemma print_sale_report_no_transaction w r w' :
  print_sale_report w = (r, w') →
  failed_in_transaction None (logged w w') = None.
Proof.
  destruct w as [d0 snap inp out fl lg].
  unfold print_sale_report, logged. run. explore.
  all: intros [= <- <-]; cbn [sqllog].
  all: by rewrite <- ?app_assoc, ?drop_app_length, ?drop_self.
Qed.

Lemma menu_body_storage_error w r w' d :
  menu_body w = (r, w') →
  failed_in_transaction None (logged w w') = Some d →
  r = Normal true ∧ store w' = d ∧ snapshot w' = None ∧
  (∃ e, last (stdout w') = Some (DbError e)) ∧
  (undisturbed (stdin w) → d = store w).
Proof.
  destruct w as [d0 snap inp out fl lg].
  unfold menu_body, logged.
  cbn - [add_sale update_sale delete_sale print_sale_report].
  destruct inp as [|t l];
    cbn - [add_sale update_sale delete_sale print_sale_report].
  { intros [= <- <-]. cbn. by rewrite drop_self. }
  repeat case_step;
    cbn - [add_sale update_sale delete_sale print_sale_report].
  1, 6, 7: by intros [= <- <-]; cbn; rewrite drop_self.
  2: { destruct (print_sale_report _) as [r1 w1] eqn:Hrun.
       intros Heq Hfail.
       assert (w1 = w') as -> by (destruct r1; by injection Heq).
       apply print_sale_report_no_transaction in Hrun.
       unfold logged in Hrun. cbn in Hrun. congruence. }
  all: match goal with
       | |- context [let (_, _) := ?run in _] =>
           destruct run as [r1 w1] eqn:Hrun
       end;
       intros Heq Hfail;
       assert (w1 = w') as -> by (destruct r1; by injection Heq).
  1: destruct (add_sale_storage_error _ _ _ _ Hrun Hfail)
       as (-> & Hst & Hsn & Hout & Hund).
  2: destruct (update_sale_storage_error _ _ _ _ Hrun Hfail)
       as (-> & Hst & Hsn & Hout & Hund).
  3: destruct (delete_sale_storage_error _ _ _ _ Hrun Hfail)
       as (-> & Hst & Hsn & Hout & Hund).
  all: injection Heq as <-; repeat split; try done.
  all: intros [Hm Hq]%Forall_cons; rewrite Hund by done; cbn; by rewrite Hm.
Qed.

(** C7. Whenever the storage layer raises an error inside the
    transaction of a create, update or delete run, the run ends with
    the store exactly as it was when the transaction began (which is
    the store the run started from when nobody else wrote meanwhile),
    no transaction is left open, the database-error message is the
    last thing printed, and the handler returns normally; a turn of the
    menu loop in which this happens ends with the answer to go round
    again. *)
Theorem storage_error_rolls_back :
  (∀ op w r w' d,
     op ∈ [add_sale; update_sale; delete_sale] →
     op w = (r, w') →
     failed_in_transaction None (logged w w') = Some d →
     r = Normal tt ∧ store w' = d ∧ snapshot w' = None ∧
     (∃ e, last (stdout w') = Some (DbError e)) ∧
     (undisturbed (stdin w) → d = store w)) ∧
  (∀ w r w' d,
     menu_body w = (r, w') →
     failed_in_transaction None (logged w w') = Some d →
     r = Normal true ∧ store w' = d ∧ snapshot w' = None ∧
     (∃ e, last (stdout w') = Some (DbError e)) ∧
     (undisturbed (stdin w) → d = store w)).
Proof.
  split; [|apply menu_body_storage_error].
  intros op w r w' d Hop.
  repeat (apply elem_of_cons in Hop as [->|Hop]).
  - apply add_sale_storage_error.
  - apply update_sale_storage_error.
  - apply delete_sale_storage_error.
  - by apply elem_of_nil in Hop.
Qed.

Lemma storage_error_rolls_back_witness :
  store faulty_session_end = shop ∧
  snapshot faulty_session_end = None ∧
  last (stdout faulty_session_end) = Some (DbError StorageFault).
Proof.
  destruct (proj1 storage_error_rolls_back add_sale faulty_session
              (Normal tt) faulty_session_end shop)
    as (_ & Hst & Hsn & _ & _).
  - constructor.
  - reflexivity.
  - reflexivity.
  - split; [exact Hst|]. split; [exact Hsn|]. reflexivity.
Defined.

(** ** The menu loop *)

Ltac stdin_shrinks :=
  intros [= <- <-]; cbn [stdin]; subst; cbn [length]; lia.

Lemma add_sale_stdin w r w' :
  add_sale w = (r, w') → (length (stdin w') ≤ length (stdin w))%nat.
Proof.
  destruct w as [d0 snap inp out fl lg].
  unfold add_sale. run. explore. all: stdin_shrinks.
Qed.

Lemma print_sale_report_stdin w r w' :
  print_sale_report w = (r, w') → (length (stdin w') ≤ length (stdin w))%nat.
Proof.
  destruct w as [d0 snap inp out fl lg].
  unfold print_sale_report. run. explore. all: stdin_shrinks.
Qed.

Lemma update_sale_stdin w r w' :
  update_sale w = (r, w') → (length (stdin w') ≤ length (stdin w))%nat.
Proof.
  destruct w as [d0 snap inp out fl lg].
  unfold update_sale, list_sales. run. explore. all: stdin_shrinks.
Qed.

Lemma delete_sale_stdin w r w' :
  delete_sale w = (r, w') → (length (stdin w') ≤ length (stdin w))%nat.
Proof.
  destruct w as [d0 snap inp out fl lg].
  unfold delete_sale, list_sales. run. explore. all: stdin_shrinks.
Qed.

(** A turn of the loop that asks for another turn has read a line. *)
Lemma menu_body_reads w w' :
  menu_body w = (Normal true, w') → (length (stdin w') < length (stdin w))%nat.
Proof.
  destruct w as [d0 snap inp out fl lg].
  unfold menu_body.
  cbn - [add_sale update_sale delete_sale print_sale_report].
  destruct inp as [|t l];
    cbn - [add_sale update_sale delete_sale print_sale_report]; [done|].
  repeat case_step;
    cbn - [add_sale update_sale delete_sale print_sale_report].
  all: try (intros [= <-]; cbn; lia).
  all: try discriminate.
  all: match goal with
       | |- context [let (_, _) := ?run in _] =>
           destruct run as [r1 w1] eqn:Hrun
       end;
       intros Heq;
       assert (w1 = w') as -> by (destruct r1; by injection Heq).
  1: apply add_sale_stdin in Hrun.
  2: apply print_sale_report_stdin in Hrun.
  3: apply update_sale_stdin in Hrun.
  4: apply delete_sale_stdin in Hrun.
  all: cbn in Hrun |- *; lia.
Qed.

(** The loop ends by itself before its fuel does: any amount of fuel
    above the number of lines left to read gives the same run. *)
Lemma menu_loop_fuel n k w :
  (length (stdin w) < n)%nat → (length (stdin w) < k)%nat →
  menu_loop n w = menu_loop k w.
Proof.
  revert k w. induction n as [|n IH]; intros k w Hn Hk; [lia|].
  destruct k as [|k]; [lia|].
  cbn [menu_loop]. unfold bind.
  destruct (menu_body w) as [[[]| |e] w1] eqn:Hbody; try done.
  apply menu_body_reads in Hbody. apply IH; lia.
Qed.

(** ** A session from the menu *)

(** A sale of three copies of book 7, a report, a change of its
    discount to 20, its deletion, and the end of the program: the stock
    is back at 10 and the sale table is empty. *)
Example shop_session :
  let w := (main (session shop ["1"; "2024-01-01"; "M1"; "7"; "3"; "50";
                                "2";
                                "3"; "1"; "20";
                                "4"; "1"; "y";
                                "5"])).2 in
  store w = Database (member shop) (book shop) ∅ 1 ∧
  snapshot w = None ∧
  stdout w =
    [Menu; Prompt AskMenu;
     Prompt AskDate; Prompt AskMember; Prompt AskBook; Prompt AskQty;
     Prompt AskDiscount; SaleAdded 250;
     Menu; Prompt AskMenu;
     ReportBlock 1 "2024-01-01" "Alice" "Seven proofs" 100 3 50 250;
     Menu; Prompt AskMenu;
     ListHeader; ListLine 1 1 "Alice" "2024-01-01"; ListFooter;
     Prompt AskUpdateChoice; Prompt AskNewDiscount; SaleUpdated 1 280;
     Menu; Prompt AskMenu;
     ListHeader; ListLine 1 1 "Alice" "2024-01-01"; ListFooter;
     Prompt AskDeleteChoice; Prompt (AskConfirm 1); SaleDeleted 1;
     Menu; Prompt AskMenu;
     Goodbye].
Proof. repeat split. Qed.

(** A discount of 2^63 for sale 1: the UPDATE cannot bind it, the
    [OverflowError] leaves [update_sale] and the loop, the connection
    rolls the open transaction back and [main] reports the error and
    ends; the choice 5 typed after it is never read. *)
Example overflow_ends_the_session :
  main (session shop_sold ["3"; "1"; "9223372036854775808"; "5"]) =
    (Normal tt,
     World shop_sold None (keyboard ["5"])
       [Menu; Prompt AskMenu;
        ListHeader; ListLine 1 1 "Alice" "2024-01-01"; ListFooter;
        Prompt AskUpdateChoice; Prompt AskNewDiscount;
        OtherError OverflowError; Goodbye]
       [] [LogBegin shop_sold; LogRollback]).
Proof. vm_compute. reflexivity. Qed.

(** * Whole runs of the handlers *)

(** ** What a run can do to the store *)

(** The lines typed when nobody else writes leave the store alone. *)
Ltac quiet Hq :=
  unfold undisturbed in Hq;
  repeat (let Hm := fresh "Hm" in
          apply Forall_cons in Hq as [Hm Hq]; rewrite Hm in *; clear Hm);
  cbn [interfere] in *.

(** A choice that passed the range test finds its row. *)
Ltac index_absurd :=
  exfalso;
  repeat match goal with
         | H : _ || _ = false |- _ => apply orb_false_elim in H as [? ?]
         | H : _ !! _ = None |- _ => apply lookup_ge_None in H
         end;
  lia.

Lemma select_bid_qty_Some d sid p :
  select_bid_qty d sid = Some p →
  ∃ s, sale d !! sid = Some s ∧ p = (bid s, sqty s).
Proof.
  unfold select_bid_qty. intros Hp.
  destruct (sale d !! sid) as [s|] eqn:Hs; [|done]. cbn in Hp.
  exists s. by injection Hp as <-.
Qed.

Lemma add_sale_effect w r w' :
  snapshot w = None →
  undisturbed (stdin w) →
  add_sale w = (r, w') →
  r = Normal tt ∧ snapshot w' = None ∧ undisturbed (stdin w') ∧
  (store w' = store w ∨ sale_recorded (store w) (store w')).
Proof.
  destruct w as [d0 snap inp out fl lg]. cbn [snapshot stdin store].
  intros -> Hq Hrun. revert Hrun Hq.
  unfold add_sale. run. explore.
  all: intros [= <- <-] Hq; cbn [snapshot stdin store]; quiet Hq.
  all: split; [done|]; split; [done|]; split; [done|].
  all: try (left; done).
  all: right;
       match goal with
       | Hv : negb (validate_date (line ?td)) = false,
         Hm : negb (truthy (member _ !! line ?tm)) = false,
         Hb : book _ !! line ?tb = Some ?info,
         Hn : (?q <=? 0) = false,
         Hdn : (?disc <? 0) = false |- _ =>
           exists (line td), (line tm), (line tb), info, q, disc;
           apply negb_false_iff in Hv, Hm
       end.
  all: repeat split; first [done | lia].
Qed.

Lemma update_sale_effect w r w' :
  snapshot w = None →
  undisturbed (stdin w) →
  update_sale w = (r, w') →
  undisturbed (stdin w') ∧
  ((r = Normal tt ∨ r = Raised EOFError) ∧ snapshot w' = None ∧
   (store w' = store w ∨ discount_changed (store w) (store w'))
   ∨
   r = Raised OverflowError ∧ snapshot w' = Some (store w) ∧
   store w' = store w ∧ discount_too_large (store w)).
Proof.
  destruct w as [d0 snap inp out fl lg]. cbn [snapshot stdin store].
  intros -> Hq Hrun. revert Hrun Hq.
  unfold update_sale, list_sales. run. explore.
  all: intros [= <- <-] Hq; cbn [snapshot stdin store]; quiet Hq.
  all: try index_absurd.
  all: split; [done|].
  all: try (left; split; [by auto|]; split; [done|]; left; done).
  all: match goal with
       | Hp : select_qty_price _ ?k = Some _,
         Hn : (?nd <? 0) = false |- _ =>
           let sl := fresh "sl" in
           let bk := fresh "bk" in
           apply select_qty_price_Some in Hp as (sl & bk & ? & ? & ->);
           cbn [fst snd] in *;
           first [ left; split; [by auto|]; split; [done|]; right
                 | right; split; [done|]; split; [done|]; split; [done|] ];
           exists k, sl, bk, nd
       end.
  all: repeat split; first [done | lia].
Qed.

Lemma delete_sale_effect w r w' :
  snapshot w = None →
  undisturbed (stdin w) →
  delete_sale w = (r, w') →
  (r = Normal tt ∨ r = Raised EOFError) ∧
  snapshot w' = None ∧ undisturbed (stdin w') ∧
  (store w' = store w ∨ sale_removed (store w) (store w')).
Proof.
  destruct w as [d0 snap inp out fl lg]. cbn [snapshot stdin store].
  intros -> Hq Hrun. revert Hrun Hq.
  unfold delete_sale, list_sales. run. explore.
  all: intros [= <- <-] Hq; cbn [snapshot stdin store]; quiet Hq.
  all: try index_absurd.
  all: split; [by auto|]; split; [done|]; split; [done|].
  all: try (left; done).
  all: right;
       match goal with
       | Hp : select_bid_qty _ ?k = Some _ |- _ =>
           let sl := fresh "sl" in
           apply select_bid_qty_Some in Hp as (sl & ? & ->);
           exists k, sl
       end.
  all: repeat split; first [done | lia].
Qed.

(** ** Book-keeping *)

Lemma sold_insert d b k s :
  sale d !! k = None →
  map_fold (λ _ s acc, copies b s + acc) 0 (<[k := s]> (sale d))
  = copies b s + sold d b.
Proof.
  intros Hk. unfold sold.
  rewrite map_fold_insert_L; [done| |done]. intros. lia.
Qed.

Lemma sold_delete d b k s :
  sale d !! k = Some s →
  sold d b
  = copies b s + map_fold (λ _ s acc, copies b s + acc) 0 (delete k (sale d)).
Proof.
  intros Hk. unfold sold.
  rewrite (map_fold_delete_L _ _ k s); [done| |done]. intros. lia.
Qed.

Lemma sold_replace d b k s s' :
  sale d !! k = Some s → copies b s' = copies b s →
  map_fold (λ _ s acc, copies b s + acc) 0 (<[k := s']> (sale d)) = sold d b.
Proof.
  intros Hk Hc. rewrite <- insert_delete_eq.
  rewrite map_fold_insert_L; [| intros; lia | apply lookup_delete_eq].
  rewrite (sold_delete d b k s) by done. by rewrite Hc.
Qed.

Lemma conserved_refl d : conserved d d.
Proof. intros b row Hb. by exists row. Qed.

Lemma conserved_trans d1 d2 d3 :
  conserved d1 d2 → conserved d2 d3 → conserved d1 d3.
Proof.
  intros H12 H23 b row Hb.
  destruct (H12 b row Hb) as (row2 & Hb2 & Ht2 & Hp2 & Hs2).
  destruct (H23 b row2 Hb2) as (row3 & Hb3 & Ht3 & Hp3 & Hs3).
  exists row3. split; [done|]. split; [congruence|]. split; [congruence|].
  by rewrite Hs3.
Qed.

Lemma sale_recorded_conserved d d' : sale_recorded d d' → conserved d d'.
Proof.
  intros (sd & m & b & info & q & disc & _ & _ & Hb & Hq & _ & ->) b' row Hb'.
  unfold sold at 1. cbn. rewrite sold_insert by apply next_sid_fresh.
  unfold copies at 1. cbn.
  case_decide as Hd; [subst b'|].
  - rewrite lookup_alter_eq, Hb. cbn. eexists. split; [done|]. cbn.
    assert (row = info) as -> by congruence. repeat split; lia.
  - rewrite lookup_alter_ne by done. exists row. repeat split; first [done|lia].
Qed.

Lemma discount_changed_conserved d d' : discount_changed d d' → conserved d d'.
Proof.
  intros (sid & s & b & nd & Hs & _ & _ & _ & ->) b' row Hb'.
  exists row. cbn. repeat split; [done|].
  unfold sold at 1. cbn. erewrite alter_Some_insert by exact Hs.
  by erewrite sold_replace.
Qed.

Lemma sale_removed_conserved d d' : sale_removed d d' → conserved d d'.
Proof.
  intros (sid & s & Hs & ->) b' row Hb'.
  unfold sold at 1. cbn. rewrite (sold_delete d b' sid s) by done.
  unfold copies at 2.
  case_decide as Hd; [subst b'|].
  - rewrite lookup_alter_eq, Hb'. cbn. eexists. split; [done|]. cbn.
    repeat split; lia.
  - rewrite lookup_alter_ne by done. exists row. repeat split; first [done|lia].
Qed.

Lemma sale_recorded_sound d d' : sale_recorded d d' → sound d → sound d'.
Proof.
  intros (sd & m & b & info & q & disc & _ & _ & Hb & Hq & _ & ->) [Hst Hqt].
  split; cbn.
  - intros b' row. destruct (decide (b = b')) as [<-|Hne].
    + rewrite lookup_alter_eq, Hb. intros [= <-]. cbn. lia.
    + rewrite lookup_alter_ne by done. apply Hst.
  - intros k s. rewrite lookup_insert. case_decide.
    + intros [= <-]. cbn. lia.
    + apply Hqt.
Qed.

Lemma discount_changed_sound d d' : discount_changed d d' → sound d → sound d'.
Proof.
  intros (sid & s & b & nd & Hs & _ & _ & _ & ->) [Hst Hqt].
  split; cbn; [done|].
  intros k s'. destruct (decide (sid = k)) as [<-|Hne].
  - rewrite lookup_alter_eq, Hs. intros [= <-]. cbn. by eapply Hqt.
  - rewrite lookup_alter_ne by done. apply Hqt.
Qed.

Lemma sale_removed_sound d d' : sale_removed d d' → sound d → sound d'.
Proof.
  intros (sid & s & Hs & ->) [Hst Hqt].
  split; cbn.
  - intros b' row. destruct (decide (bid s = b')) as [<-|Hne].
    + rewrite lookup_alter_eq. destruct (book d !! bid s) as [r0|] eqn:Hb; [|done].
      intros [= <-]. cbn. specialize (Hst _ _ Hb). specialize (Hqt _ _ Hs). lia.
    + rewrite lookup_alter_ne by done. apply Hst.
  - intros k s'. rewrite lookup_delete. case_decide; [done|]. apply Hqt.
Qed.

Lemma kept_refl d : kept d d.
Proof. split; [done|]. split; [apply conserved_refl|done]. Qed.

Lemma kept_trans d1 d2 d3 : kept d1 d2 → kept d2 d3 → kept d1 d3.
Proof.
  intros (Hm1 & Hc1 & Hs1) (Hm2 & Hc2 & Hs2).
  split; [congruence|]. split; [by eapply conserved_trans|auto].
Qed.

Lemma sale_recorded_kept d d' : sale_recorded d d' → kept d d'.
Proof.
  intros H. split; [|split].
  - by destruct H as (? & ? & ? & ? & ? & ? & _ & _ & _ & _ & _ & ->).
  - by apply sale_recorded_conserved.
  - by apply sale_recorded_sound.
Qed.

Lemma discount_changed_kept d d' : discount_changed d d' → kept d d'.
Proof.
  intros H. split; [|split].
  - by destruct H as (? & ? & ? & ? & _ & _ & _ & _ & ->).
  - by apply discount_changed_conserved.
  - by apply discount_changed_sound.
Qed.

Lemma sale_removed_kept d d' : sale_removed d d' → kept d d'.
Proof.
  intros H. split; [|split].
  - by destruct H as (? & ? & _ & ->).
  - by apply sale_removed_conserved.
  - by apply sale_removed_sound.
Qed.

(** ** All or nothing *)

(** X1. Started with no transaction open and nobody else writing, a
    create-sale run always returns normally (whatever is typed, where
    the input ends and wherever the storage layer fails), leaves no
    transaction open, and either leaves the store exactly as it was or
    has recorded one sale: a row with a date [validate_date] accepts,
    an existing member with a name, an existing book, a quantity
    between 1 and the stock, a discount of at least 0 and the total
    price times quantity minus discount, with the stock of that book
    reduced by the quantity.  Nothing in between is ever left behind;
    so the member table is as it was, no book is lost, renamed or
    repriced, every book's stock + copies sold is what it was, and a
    store without negative stock stays one. *)
Theorem add_sale_all_or_nothing w r w' :
  snapshot w = None →
  undisturbed (stdin w) →
  add_sale w = (r, w') →
  r = Normal tt ∧ snapshot w' = None ∧ undisturbed (stdin w') ∧
  (store w' = store w ∨ sale_recorded (store w) (store w')) ∧
  kept (store w) (store w').
Proof.
  intros Hs Hq Hrun.
  destruct (add_sale_effect w r w' Hs Hq Hrun) as (Hr & Hs' & Hq' & Hcase).
  do 4 (split; [done|]).
  destruct Hcase as [->|Hrec]; [apply kept_refl | by apply sale_recorded_kept].
Qed.

Lemma add_sale_all_or_nothing_witness :
  let w := session shop ["2024-01-01"; "M1"; "7"; "3"; "50"] in
  kept shop (store (add_sale w).2).
Proof.
  intros w.
  destruct (add_sale_all_or_nothing w (add_sale w).1 (add_sale w).2)
    as (_ & _ & _ & _ & H);
    [reflexivity | cbn; repeat constructor | apply surjective_pairing
    | exact H].
Defined.



(** X3. Under the same conditions a delete run returns normally or
    raises [EOFError], leaves no transaction open, and either leaves
    the store as it was or has removed one existing sale and given its
    quantity back to the stock of its book; so every book's stock +
    copies sold is what it was. *)
Theorem delete_sale_all_or_nothing w r w' :
  snapshot w = None →
  undisturbed (stdin w) →
  delete_sale w = (r, w') →
  (r = Normal tt ∨ r = Raised EOFError) ∧
  snapshot w' = None ∧ undisturbed (stdin w') ∧
  (store w' = store w ∨ sale_removed (store w) (store w')) ∧
  kept (store w) (store w').
Proof.
  intros Hs Hq Hrun.
  destruct (delete_sale_effect w r w' Hs Hq Hrun) as (Hr & Hs' & Hq' & Hcase).
  do 4 (split; [done|]).
  destruct Hcase as [->|Hrem]; [apply kept_refl | by apply sale_removed_kept].
Qed.

Lemma delete_sale_all_or_nothing_witness :
  let w := session shop_sold ["1"; "y"] in
  kept shop_sold (store (delete_sale w).2).
Proof.
  intros w.
  destruct (delete_sale_all_or_nothing w (delete_sale w).1 (delete_sale w).2)
    as (_ & _ & _ & _ & H);
    [reflexivity | cbn; repeat constructor | apply surjective_pairing
    | exact H].
Defined.

(** X4. The report only reads: from any world at all it returns
    normally (a storage error is printed, not raised) and changes
    neither the store, nor the open transaction, nor the input left to
    read. *)
Theorem print_sale_report_read_only w r w' :
  print_sale_report w = (r, w') →
  r = Normal tt ∧ store w' = store w ∧ snapshot w' = snapshot w ∧
  stdin w' = stdin w.
Proof.
  destruct w as [d0 snap inp out fl lg].
  unfold print_sale_report. run. explore.
  all: by intros [= <- <-].
Qed.

Lemma print_sale_report_read_only_witness :
  let w := session shop_sold [] in
  store (print_sale_report w).2 = shop_sold.
Proof.
  intros w.
  apply (print_sale_report_read_only w (print_sale_report w).1
           (print_sale_report w).2), surjective_pairing.
Defined.

(** ** The menu loop keeps the books *)

(** One turn of the loop, whatever is chosen: a transaction is left
    open only by the [OverflowError] of an update, with the store as
    the transaction found it. *)
Lemma menu_body_effect w r w' :
  snapshot w = None →
  undisturbed (stdin w) →
  menu_body w = (r, w') →
  undisturbed (stdin w') ∧ kept (store w) (store w') ∧
  (snapshot w' = None ∨
   r = Raised OverflowError ∧ snapshot w' = Some (store w')).
Proof.
  destruct w as [d0 snap inp out fl lg]. cbn [snapshot stdin store].
  intros -> Hq. unfold menu_body.
  cbn - [add_sale update_sale delete_sale print_sale_report].
  destruct inp as [|t l];
    cbn - [add_sale update_sale delete_sale print_sale_report].
  { intros [= <- <-]. split; [done|]. split; [apply kept_refl|by left]. }
  apply Forall_cons in Hq as [Hm Hq]. rewrite Hm. cbn [interfere].
  repeat case_step;
    cbn - [add_sale update_sale delete_sale print_sale_report].
  1, 6, 7: by intros [= <- <-]; split; [|split; [apply kept_refl|left]].
  all: match goal with
       | |- context [let (_, _) := ?run in _] =>
           destruct run as [r1 w1] eqn:Hrun
       end;
       intros Heq;
       assert (w1 = w') as -> by (destruct r1; by injection Heq).
  - apply add_sale_effect in Hrun as (_ & ? & ? & [->|?]); try done.
    + split; [done|]. split; [apply kept_refl|by left].
    + split; [done|]. split; [by apply sale_recorded_kept|by left].
  - revert Hrun. unfold print_sale_report. run. explore.
    all: intros [= <- <-]; cbn [snapshot stdin store].
    all: split; [done|]; split; [apply kept_refl|by left].
  - apply update_sale_effect in Hrun
      as (? & [(_ & ? & [->|?]) | (-> & Hs1 & Hst & _)]); try done.
    + split; [done|]. split; [apply kept_refl|by left].
    + split; [done|]. split; [by apply discount_changed_kept|by left].
    + injection Heq as <-. cbn [store] in *. rewrite Hst.
      split; [done|]. split; [apply kept_refl|]. right. by rewrite Hs1.
  - apply delete_sale_effect in Hrun as (_ & ? & ? & [->|?]); try done.
    + split; [done|]. split; [apply kept_refl|by left].
    + split; [done|]. split; [by apply sale_removed_kept|by left].
Qed.

Lemma menu_loop_keeps_the_books n w r w' :
  snapshot w = None →
  undisturbed (stdin w) →
  menu_loop n w = (r, w') →
  kept (store w) (store w') ∧
  (snapshot w' = None ∨
   r = Raised OverflowError ∧ snapshot w' = Some (store w')).
Proof.
  revert w. induction n as [|n IH]; intros w Hs Hq; cbn [menu_loop].
  { intros [= <- <-]. split; [apply kept_refl|by left]. }
  unfold bind. destruct (menu_body w) as [r1 w1] eqn:Hbody.
  apply menu_body_effect in Hbody as (Hq1 & Hk1 & Hs1); [|done..].
  destruct r1 as [[]| |e].
  - destruct Hs1 as [Hs1|[[=] _]].
    intros Hrun. apply IH in Hrun as [? ?]; [|done..].
    split; [by eapply kept_trans|done].
  - destruct Hs1 as [Hs1|[[=] _]]. intros [= <- <-]. split; [done|by left].
  - intros [= <- <-]. split; [done|]. by destruct Hs1 as [?|[[=] _]]; left.
  - intros [= <- <-]. split; [done|].
    destruct Hs1 as [?|[[= ->] ?]]; [by left|by right].
Qed.

(** ** The program as a whole *)

Lemma call_never_returns body w : (call body w).1 ≠ Returned.
Proof. unfold call. by destruct (body w) as [[]]. Qed.

Lemma menu_body_never_returns w : (menu_body w).1 ≠ Returned.
Proof.
  unfold menu_body.
  cbn - [add_sale update_sale delete_sale print_sale_report].
  destruct (stdin w) as [|t l];
    cbn - [add_sale update_sale delete_sale print_sale_report]; [done|].
  repeat case_step;
    cbn - [add_sale update_sale delete_sale print_sale_report]; try done.
  all: match goal with
       | |- context [let (_, _) := ?run in _] =>
           pose proof (call_never_returns _ _ : run.1 ≠ Returned);
           by destruct run as [[]]
       end.
Qed.

Lemma menu_loop_never_returns n w : (menu_loop n w).1 ≠ Returned.
Proof.
  revert w. induction n as [|n IH]; intros w; cbn [menu_loop]; [done|].
  unfold bind. pose proof (menu_body_never_returns w).
  destruct (menu_body w) as [[[]| |e] w1]; first [done | apply IH].
Qed.

Lemma with_connection_never_returns n w :
  (with_connection (menu_loop n) w).1 ≠ Returned.
Proof.
  unfold with_connection, bind.
  destruct (storage_call w) as [[[]| |e] w0] eqn:Hc; [| |done].
  - pose proof (menu_loop_never_returns n w0).
    destruct (menu_loop n w0) as [[[]| |e] w1]; [|done|].
    + by destruct (commit w1) as [[[]| |e] w2].
    + by destruct (rollback w1).
  - unfold storage_call in Hc. by destruct (faults w) as [|[]].
Qed.

(** X5. From every world (any database, any input, ended or not, any
    schedule of storage failures) [main] ends normally, no exception
    escapes it, and the last thing it prints is the goodbye message. *)
Theorem main_says_goodbye w :
  (main w).1 = Normal tt ∧ last (stdout (main w).2) = Some Goodbye.
Proof.
  unfold main, try_finally, try_except.
  pose proof (with_connection_never_returns (S (length (stdin w))) w) as Hr.
  destruct (with_connection _ w) as [[[]| |e] w1]; [|done|].
  - destruct w1. cbn. split; [done|apply last_snoc].
  - destruct e; destruct w1; cbn; (split; [done|apply last_snoc]).
Qed.

(** X6. A whole session, of any length and with any storage failures,
    run with nobody else writing: at the end no transaction is open,
    the member table is unchanged, no book is lost, renamed or
    repriced, every book's stock + copies sold is what it was at the
    start, and a store without negative stock or non-positive
    quantities is still one. *)
Theorem main_keeps_the_books w :
  snapshot w = None →
  undisturbed (stdin w) →
  snapshot (main w).2 = None ∧ kept (store w) (store (main w).2).
Proof.
  intros Hs Hq.
  unfold main, try_finally, try_except, with_connection, bind.
  destruct (storage_call w) as [r0 w0] eqn:Hc.
  assert (store w0 = store w ∧ snapshot w0 = None ∧ stdin w0 = stdin w)
    as (Hst0 & Hs0 & Hi0).
  { unfold storage_call in Hc. destruct w as [? ? ? ? [|[]] ?].
    all: by injection Hc as <- <-. }
  destruct r0 as [[]| |e].
  - destruct (menu_loop _ w0) as [r1 w1] eqn:Hloop.
    apply menu_loop_keeps_the_books in Hloop as [Hk1 Hs1];
      [|done|by rewrite Hi0].
    rewrite Hst0 in Hk1.
    destruct w1 as [d1 s1 i1 o1 f1 l1]. cbn in Hs1, Hk1.
    destruct Hs1 as [->|[-> ->]].
    + destruct r1 as [[]| |e]; cbn; try done.
      destruct e; cbn; done.
    + cbn. done.
  - destruct w0. cbn in *. subst. split; [done|apply kept_refl].
  - destruct e; destruct w0; cbn in *; subst; (split; [done|apply kept_refl]).
Qed.

Lemma main_keeps_the_books_witness :
  let w := session shop ["1"; "2024-01-01"; "M1"; "7"; "3"; "50"; "5"] in
  kept shop (store (main w).2).
Proof.
  intros w.
  apply (main_keeps_the_books w); [reflexivity | cbn; repeat constructor].
Defined.

(** * Refusals *)

(** ** Refusals of a create-sale run *)

(** X7. A date that [validate_date] rejects ends the create-sale run
    at once: the error message follows the first prompt, no further
    line is read and the storage layer is not called at all (the
    oracle of failures and the storage log are as they were). *)
Theorem add_sale_bad_date w t rest :
  stdin w = t :: rest →
  validate_date (line t) = false →
  add_sale w =
    (Normal tt,
     emit [Prompt AskDate; ErrDateFormat]
       (set_stdin rest (set_store (interfere (meanwhile t) (store w)) w))).
Proof.
  destruct w as [d0 snap inp out fl lg]. cbn [stdin]. intros -> Hd.
  unfold add_sale. run. rewrite Hd. run. by rewrite <- app_assoc.
Qed.

Lemma add_sale_bad_date_witness :
  add_sale (session shop ["2024/01/01"]) =
    (Normal tt,
     World shop None [] [Prompt AskDate; ErrDateFormat] [] []).
Proof.
  apply (add_sale_bad_date (session shop ["2024/01/01"])
           (Typed "2024/01/01" None) []); reflexivity.
Defined.

(** X8. A member whose row exists but whose name is the empty string
    is refused like a member that does not exist: [add_sale] tests the
    truth value of the name that [get_member_name] returns, not the
    presence of the row. *)
Theorem add_sale_nameless_member w sdate_s mid_s rest :
  head (faults w) ≠ Some true →
  stdin w = keyboard [sdate_s; mid_s] ++ rest →
  validate_date sdate_s = true →
  member (store w) !! mid_s = Some EmptyString →
  add_sale w =
    (Normal tt,
     emit [Prompt AskDate; Prompt AskMember; ErrNoMember]
       (set_stdin rest (set_faults (tail (faults w)) w))).
Proof.
  destruct w as [d0 snap inp out fl lg]. cbn [stdin faults store].
  intros Hf -> Hd Hm.
  unfold add_sale. run. rewrite Hd. run.
  destruct fl as [|[] fl]; [|by destruct Hf|]; run; rewrite Hm; cbn;
    by rewrite <- !app_assoc.
Qed.

Lemma add_sale_nameless_member_witness :
  add_sale (session shop_nameless ["2024-01-01"; "M2"]) =
    (Normal tt,
     World shop_nameless None []
       [Prompt AskDate; Prompt AskMember; ErrNoMember] [] []).
Proof.
  apply (add_sale_nameless_member (session shop_nameless ["2024-01-01"; "M2"])
           "2024-01-01" "M2" []);
    [discriminate | reflexivity | reflexivity | reflexivity].
Defined.

(** X9. After a valid date, member and book, a quantity that is not
    an integer, or is an integer not above 0, ends the run with the
    matching message (not-an-integer, or not-positive); the discount
    is not asked, no transaction is begun and the store is
    unchanged. *)
Theorem add_sale_bad_quantity w sdate_s mid_s bid_s qty_s rest info :
  faults w = [] →
  stdin w = keyboard [sdate_s; mid_s; bid_s; qty_s] ++ rest →
  validate_date sdate_s = true →
  truthy (member (store w) !! mid_s) = true →
  (get_book_info bid_s w).1 = Normal (Some info) →
  (∀ q, Str.py_int qty_s = Some q → q ≤ 0) →
  add_sale w =
    (Normal tt,
     emit [Prompt AskDate; Prompt AskMember; Prompt AskBook; Prompt AskQty;
           match Str.py_int qty_s with
           | Some _ => ErrQtyNotPositive
           | None => ErrQtyNotInt
           end]
       (set_stdin rest w)).
Proof.
  destruct w as [d0 snap inp out fl lg]. cbn [stdin faults store].
  intros -> -> Hd Hm Hb Hq. cbn in Hb.
  destruct (1 =? String.length bid_s)%nat eqn:Hlen; cbn in Hb; [|done].
  injection Hb as Hb.
  unfold add_sale. run. rewrite Hd. run. rewrite Hm. run.
  rewrite Hlen. run. rewrite Hb. run.
  destruct (Str.py_int qty_s) as [q|]; run.
  - specialize (Hq q eq_refl). replace (q <=? 0) with true by lia. run.
    by rewrite <- !app_assoc.
  - by rewrite <- !app_assoc.
Qed.

Lemma add_sale_bad_quantity_witness :
  add_sale (session shop ["2024-01-01"; "M1"; "7"; "0"]) =
    (Normal tt,
     World shop None []
       [Prompt AskDate; Prompt AskMember; Prompt AskBook; Prompt AskQty;
        ErrQtyNotPositive] [] []).
Proof.
  apply (add_sale_bad_quantity (session shop ["2024-01-01"; "M1"; "7"; "0"])
           "2024-01-01" "M1" "7" "0" [] (BookRow "Seven proofs" 100 10));
    [reflexivity | reflexivity | reflexivity | reflexivity | reflexivity |].
  intros q H. vm_compute in H. injection H as <-. lia.
Defined.

(** X10. After a valid date, member, book and quantity, a discount
    that is not an integer, or is a negative integer, ends the run with
    the matching message; no transaction is begun and the store is
    unchanged. *)
Theorem add_sale_bad_discount w sdate_s mid_s bid_s qty_s disc_s rest info q :
  faults w = [] →
  stdin w = keyboard [sdate_s; mid_s; bid_s; qty_s; disc_s] ++ rest →
  validate_date sdate_s = true →
  truthy (member (store w) !! mid_s) = true →
  (get_book_info bid_s w).1 = Normal (Some info) →
  Str.py_int qty_s = Some q → 0 < q ≤ bstock info →
  (∀ disc, Str.py_int disc_s = Some disc → disc < 0) →
  add_sale w =
    (Normal tt,
     emit [Prompt AskDate; Prompt AskMember; Prompt AskBook; Prompt AskQty;
           Prompt AskDiscount;
           match Str.py_int disc_s with
           | Some _ => ErrDiscountNegative
           | None => ErrDiscountNotInt
           end]
       (set_stdin rest w)).
Proof.
  destruct w as [d0 snap inp out fl lg]. cbn [stdin faults store].
  intros -> -> Hd Hm Hb Hq Hqr Hdisc. cbn in Hb.
  destruct (1 =? String.length bid_s)%nat eqn:Hlen; cbn in Hb; [|done].
  injection Hb as Hb.
  unfold add_sale. run. rewrite Hd. run. rewrite Hm. run.
  rewrite Hlen. run. rewrite Hb. run. rewrite Hq. run.
  replace (q <=? 0) with false by lia. run.
  replace (bstock info <? q) with false by lia. run.
  destruct (Str.py_int disc_s) as [disc|]; run.
  - specialize (Hdisc disc eq_refl). replace (disc <? 0) with true by lia. run.
    by rewrite <- !app_assoc.
  - by rewrite <- !app_assoc.
Qed.

Lemma add_sale_bad_discount_witness :
  add_sale (session shop ["2024-01-01"; "M1"; "7"; "3"; "-5"]) =
    (Normal tt,
     World shop None []
       [Prompt AskDate; Prompt AskMember; Prompt AskBook; Prompt AskQty;
        Prompt AskDiscount; ErrDiscountNegative] [] []).
Proof.
  apply (add_sale_bad_discount
           (session shop ["2024-01-01"; "M1"; "7"; "3"; "-5"])
           "2024-01-01" "M1" "7" "3" "-5" [] (BookRow "Seven proofs" 100 10) 3);
    [reflexivity | reflexivity | reflexivity | reflexivity | reflexivity
    | reflexivity | simpl; lia |].
  intros disc H. vm_compute in H. injection H as <-. lia.
Defined.

(** ** The selection menu of update and delete *)

Ltac same_output :=
  rewrite <- ?app_assoc; simpl; rewrite <- ?app_assoc; reflexivity.

Lemma list_sales_outcome w :
  list_sales w =
    match faults w with
    | true :: fs =>
        (Normal [], emit [DbError StorageFault] (log LogError (set_faults fs w)))
    | false :: fs => (Normal (select_listing (store w)), set_faults fs w)
    | [] => (Normal (select_listing (store w)), w)
    end.
Proof. destruct w as [d s i o [|[] fl] lg]; reflexivity. Qed.

(** X11. When [list_sales] has no row to offer, update and delete
    print their nothing-to-update and nothing-to-delete message after
    whatever [list_sales] did, and return: no menu is printed, no line
    is read, no transaction is begun. *)
Theorem nothing_to_select w :
  (list_sales w).1 = Normal [] →
  update_sale w = (Normal tt, emit [NothingToUpdate] (list_sales w).2) ∧
  delete_sale w = (Normal tt, emit [NothingToDelete] (list_sales w).2).
Proof.
  intros Hl. unfold update_sale, delete_sale, call, bind.
  destruct (list_sales w) as [r w1]. cbn in Hl. subst r.
  destruct w1. done.
Qed.

Lemma nothing_to_select_witness :
  update_sale (session shop []) =
    (Normal tt, World shop None [] [NothingToUpdate] [] []).
Proof. apply (nothing_to_select (session shop [])). reflexivity. Defined.

(** X12. When the query of [list_sales] fails, the error is printed
    and the empty list returned, so update and delete go on to say
    that there is nothing to update or delete, although the sale table
    may hold rows; they return normally and begin no transaction. *)
Theorem listing_failure w fs :
  faults w = true :: fs →
  let w1 := emit [DbError StorageFault] (log LogError (set_faults fs w)) in
  list_sales w = (Normal [], w1) ∧
  update_sale w = (Normal tt, emit [NothingToUpdate] w1) ∧
  delete_sale w = (Normal tt, emit [NothingToDelete] w1).
Proof.
  destruct w as [d0 snap inp out fl lg]. cbn [faults]. intros ->.
  unfold update_sale, delete_sale, list_sales. cbn.
  by rewrite <- !app_assoc.
Qed.

Lemma listing_failure_witness :
  (update_sale broken_listing).1 = Normal tt ∧
  printed broken_listing (update_sale broken_listing).2
    = [DbError StorageFault; NothingToUpdate].
Proof.
  destruct (listing_failure broken_listing []) as (_ & Hu & _); [reflexivity|].
  rewrite Hu. split; reflexivity.
Defined.

(** X13. An empty line at the selection prompt cancels update and
    delete: after the menu and the prompt nothing more is printed, no
    further line is read and no transaction is begun. *)
Theorem selection_cancelled w t rest :
  faults w = [] →
  select_listing (store w) ≠ [] →
  stdin w = t :: rest →
  line t = EmptyString →
  let w1 := set_stdin rest (set_store (interfere (meanwhile t) (store w)) w) in
  update_sale w =
    (Normal tt, emit (listing_of (store w) ++ [Prompt AskUpdateChoice]) w1) ∧
  delete_sale w =
    (Normal tt, emit (listing_of (store w) ++ [Prompt AskDeleteChoice]) w1).
Proof.
  destruct w as [d0 snap inp out fl lg]. cbn [stdin faults store].
  intros -> Hne -> Ht. unfold listing_of.
  unfold update_sale, delete_sale. run.
  rewrite bool_decide_eq_false_2 by done. run.
  rewrite !print_listing_run. run. rewrite Ht. run.
  split; same_output.
Qed.

Lemma selection_cancelled_witness :
  (delete_sale (session shop_sold [EmptyString])).1 = Normal tt ∧
  store (delete_sale (session shop_sold [EmptyString])).2 = shop_sold.
Proof.
  destruct (selection_cancelled (session shop_sold [EmptyString])
              (Typed EmptyString None) []) as [_ Hd];
    [reflexivity | discriminate | reflexivity | reflexivity |].
  rewrite Hd. split; reflexivity.
Defined.

(** X14. A selection that is not empty and is either not an integer or
    an integer outside 1..number of listed sales gets the same
    invalid-number message from update and from delete; no further
    line is read and no transaction is begun.  In particular 0 and
    negative numbers are refused: Python's indexing from the end is
    never reached. *)
Theorem selection_invalid w t rest :
  faults w = [] →
  select_listing (store w) ≠ [] →
  stdin w = t :: rest →
  line t ≠ EmptyString →
  (∀ n, Str.py_int (line t) = Some n →
        n < 1 ∨ Z.of_nat (length (select_listing (store w))) < n) →
  let w1 := set_stdin rest (set_store (interfere (meanwhile t) (store w)) w) in
  update_sale w =
    (Normal tt,
     emit (listing_of (store w) ++ [Prompt AskUpdateChoice; ErrChoice]) w1) ∧
  delete_sale w =
    (Normal tt,
     emit (listing_of (store w) ++ [Prompt AskDeleteChoice; ErrChoice]) w1).
Proof.
  destruct w as [d0 snap inp out fl lg]. cbn [stdin faults store].
  intros -> Hne -> Ht Hn. unfold listing_of.
  unfold update_sale, delete_sale. run.
  rewrite bool_decide_eq_false_2 by done. run.
  rewrite !print_listing_run. run.
  replace (line t =? EmptyString)%string with false
    by (symmetry; by apply String.eqb_neq).
  run. destruct (Str.py_int (line t)) as [n|]; run.
  - specialize (Hn n eq_refl).
    replace ((n <? 1) || (n >? Z.of_nat (length (select_listing d0))))
      with true by (symmetry; apply orb_true_iff; lia).
    run. split; same_output.
  - split; same_output.
Qed.

Lemma selection_invalid_witness :
  (update_sale (session shop_sold ["9"])).1 = Normal tt ∧
  last (stdout (update_sale (session shop_sold ["9"])).2) = Some ErrChoice.
Proof.
  destruct (selection_invalid (session shop_sold ["9"])
              (Typed "9" None) []) as [Hu _];
    [reflexivity | discriminate | reflexivity | discriminate | |].
  - intros n H. vm_compute in H. injection H as <-. right.
    vm_compute. reflexivity.
  - rewrite Hu. split; reflexivity.
Defined.

Lemma lower_char_y c : Str.lower_char c = "y"%char ↔ c = "y"%char ∨ c = "Y"%char.
Proof.
  destruct c as [[] [] [] [] [] [] [] []]; vm_compute;
    split; intros H; try discriminate H; auto;
    destruct H as [H|H]; discriminate H.
Qed.

(** Exactly two answers confirm a deletion. *)
Lemma lower_is_y s : Str.lower s = "y" ↔ s = "y" ∨ s = "Y".
Proof.
  destruct s as [|c [|c' s']]; cbn.
  - split; [done|]. by intros [|].
  - split.
    + intros [= H]. apply lower_char_y in H as [->| ->]; auto.
    + intros [[= ->]|[= ->]]; done.
  - split; [done|]. by intros [|].
Qed.

(** X15. Any answer to the confirmation other than the one letter y or
    Y (so also yes, an empty line, or y with a space) cancels the
    deletion: the cancel message is printed, no transaction is begun
    and the program itself changes nothing in the store. *)
Theorem delete_declined w choice_s o1 confirm_s o2 rest n sid sd mn :
  faults w = [] →
  stdin w = Typed choice_s o1 :: Typed confirm_s o2 :: rest →
  Str.py_int choice_s = Some n → 1 ≤ n →
  select_listing (store w) !! Z.to_nat (n - 1) = Some (sid, sd, mn) →
  confirm_s ≠ "y" → confirm_s ≠ "Y" →
  delete_sale w =
    (Normal tt,
     emit (listing_of (store w) ++
           [Prompt AskDeleteChoice; Prompt (AskConfirm sid); DeleteCancelled])
       (set_stdin rest
          (set_store (interfere o2 (interfere o1 (store w))) w))).
Proof.
  destruct w as [d0 snap inp out fl lg]. cbn [stdin faults store].
  intros -> -> Hc Hn Hrow Hy1 Hy2. unfold listing_of.
  unfold delete_sale. run.
  rewrite (lookup_nonempty _ _ _ Hrow). run.
  rewrite print_listing_run. run.
  rewrite (py_int_nonempty _ _ Hc). run. rewrite Hc. run.
  rewrite (choice_in_range _ _ _ Hn Hrow). run.
  erewrite index_run by (lia || exact Hrow). run.
  replace (Str.lower confirm_s =? "y")%string with false.
  2: { symmetry. apply String.eqb_neq. rewrite lower_is_y. tauto. }
  run. same_output.
Qed.

Lemma delete_declined_witness :
  (delete_sale (session shop_sold ["1"; "yes"])).1 = Normal tt ∧
  store (delete_sale (session shop_sold ["1"; "yes"])).2 = shop_sold.
Proof.
  rewrite (delete_declined (session shop_sold ["1"; "yes"])
             "1" None "yes" None [] 1 1 "2024-01-01" "Alice");
    [split; reflexivity | reflexivity | reflexivity | reflexivity | lia
    | reflexivity | discriminate | discriminate].
Defined.

(** X16. After a valid selection, a new discount that is not an
    integer, or is a negative integer, ends the update run with the
    matching message; no transaction is begun and the program itself
    changes nothing in the store. *)
Theorem update_sale_bad_discount w choice_s o1 disc_s o2 rest n sid sd mn :
  faults w = [] →
  stdin w = Typed choice_s o1 :: Typed disc_s o2 :: rest →
  Str.py_int choice_s = Some n → 1 ≤ n →
  select_listing (store w) !! Z.to_nat (n - 1) = Some (sid, sd, mn) →
  (∀ disc, Str.py_int disc_s = Some disc → disc < 0) →
  update_sale w =
    (Normal tt,
     emit (listing_of (store w) ++
           [Prompt AskUpdateChoice; Prompt AskNewDiscount;
            match Str.py_int disc_s with
            | Some _ => ErrDiscountNegative
            | None => ErrDiscountNotInt
            end])
       (set_stdin rest
          (set_store (interfere o2 (interfere o1 (store w))) w))).
Proof.
  destruct w as [d0 snap inp out fl lg]. cbn [stdin faults store].
  intros -> -> Hc Hn Hrow Hdisc. unfold listing_of.
  unfold update_sale. run.
  rewrite (lookup_nonempty _ _ _ Hrow). run.
  rewrite print_listing_run. run.
  rewrite (py_int_nonempty _ _ Hc). run. rewrite Hc. run.
  rewrite (choice_in_range _ _ _ Hn Hrow). run.
  erewrite index_run by (lia || exact Hrow). run.
  destruct (Str.py_int disc_s) as [disc|]; run.
  - specialize (Hdisc disc eq_refl). replace (disc <? 0) with true by lia. run.
    same_output.
  - same_output.
Qed.

Lemma update_sale_bad_discount_witness :
  (update_sale (session shop_sold ["1"; "ten"])).1 = Normal tt ∧
  store (update_sale (session shop_sold ["1"; "ten"])).2 = shop_sold ∧
  last (stdout (update_sale (session shop_sold ["1"; "ten"])).2)
    = Some ErrDiscountNotInt.
Proof.
  rewrite (update_sale_bad_discount (session shop_sold ["1"; "ten"])
             "1" None "ten" None [] 1 1 "2024-01-01" "Alice");
    [repeat split | reflexivity | reflexivity | reflexivity | lia
    | reflexivity |].
  intros disc H. vm_compute in H. discriminate H.
Defined.

(** * What is listed and reported *)

(** ** The order of listings and reports *)

Lemma sales_by_sid_strict d : StronglySorted sid_lt (sales_by_sid d).
Proof.
  pose proof (sales_by_sid_sorted d) as Hs.
  assert (NoDup (sales_by_sid d).*1) as Hnd.
  { unfold sales_by_sid. rewrite merge_sort_Permutation.
    apply NoDup_fst_map_to_list. }
  assert (Transitive sid_le) by (intros x y z; unfold sid_le; lia).
  apply Sorted_StronglySorted in Hs; [|done].
  induction Hs as [|x l Hl IH Hx]; [constructor|].
  apply NoDup_cons in Hnd as [Hnotin Hnd].
  constructor; [by apply IH|].
  apply Forall_forall. intros y Hy.
  rewrite Forall_forall in Hx. specialize (Hx y Hy).
  unfold sid_le in Hx. unfold sid_lt.
  assert (x.1 ≠ y.1); [|lia].
  intros Heq. apply Hnotin. rewrite Heq. by apply list_elem_of_fmap_2.
Qed.

Lemma omap_keys_sorted {B} (f : Z * sale_row → option B) (key : B → Z) l :
  (∀ r y, f r = Some y → key y = r.1) →
  StronglySorted sid_lt l →
  StronglySorted Z.lt (key <$> omap f l).
Proof.
  intros Hkey Hl. induction Hl as [|x l Hl IH Hx]; [constructor|].
  cbn. destruct (f x) as [y|] eqn:Hfx; [|done].
  cbn. constructor; [done|].
  apply Forall_forall. intros k Hk.
  apply list_elem_of_fmap in Hk as (y' & -> & Hy').
  apply list_elem_of_omap in Hy' as (r & Hr & Hfr).
  rewrite Forall_forall in Hx. specialize (Hx r Hr).
  rewrite (Hkey _ _ Hfx), (Hkey _ _ Hfr). exact Hx.
Qed.

Lemma select_listing_rows d :
  (∀ sid sd mn,
     (sid, sd, mn) ∈ select_listing d ↔
     ∃ s, sale d !! sid = Some s ∧ sdate s = sd ∧ member d !! mid s = Some mn) ∧
  StronglySorted Z.lt ((select_listing d).*1.*1).
Proof.
  split.
  - intros sid sd mn. unfold select_listing. rewrite list_elem_of_omap. split.
    + intros ([k s] & Hin & Hrow). apply sales_by_sid_elem in Hin.
      cbn in Hrow. destruct (member d !! mid s) eqn:Hm; simplify_eq/=.
      eauto.
    + intros (s & Hs & <- & Hm). exists (sid, s). split.
      * by apply sales_by_sid_elem.
      * cbn. by rewrite Hm.
  - rewrite <- list_fmap_compose. apply omap_keys_sorted.
    + intros [k s] y Hy. cbn in *.
      destruct (member d !! mid s); simplify_eq/=. done.
    + apply sales_by_sid_strict.
Qed.

(** X17. When its query does not fail, [list_sales] returns exactly the
    sales whose member exists, each with its sale number, its date and
    the name of its member, in strictly ascending order of sale number
    (so no sale twice); a sale whose member id matches no member row is
    left out.  It prints nothing and leaves the store as it is. *)
Theorem list_sales_rows w rows w' :
  head (faults w) ≠ Some true →
  list_sales w = (Normal rows, w') →
  (∀ sid sd mn,
     (sid, sd, mn) ∈ rows ↔
     ∃ s, sale (store w) !! sid = Some s ∧ sdate s = sd ∧
          member (store w) !! mid s = Some mn) ∧
  StronglySorted Z.lt (rows.*1.*1) ∧
  store w' = store w ∧ stdout w' = stdout w.
Proof.
  intros Hf. rewrite list_sales_outcome.
  pose proof (select_listing_rows (store w)) as [Hin Hsorted].
  destruct w as [d s i o [|[] fl] lg]; cbn in *.
  - by intros [= <- <-].
  - by destruct Hf.
  - by intros [= <- <-].
Qed.

Lemma list_sales_rows_witness :
  StronglySorted Z.lt ((select_listing shop_sold).*1.*1).
Proof.
  apply (list_sales_rows (session shop_sold []) (select_listing shop_sold)
           (session shop_sold []));
    [discriminate | reflexivity].
Defined.

(** X18. With a working storage layer and a non-empty join, the report
    prints one block for each sale whose member and whose book both
    exist, and nothing else: the blocks are in strictly ascending order
    of sale number, and a sale whose member or book row is missing is
    silently left out of the report. *)
Theorem report_rows w :
  faults w = [] →
  select_report (store w) ≠ [] →
  printed w (print_sale_report w).2 = report_block <$> select_report (store w) ∧
  (∀ sid s mn b,
     (sid, s, mn, b) ∈ select_report (store w) ↔
     sale (store w) !! sid = Some s ∧
     member (store w) !! mid s = Some mn ∧
     book (store w) !! bid s = Some b) ∧
  StronglySorted Z.lt ((select_report (store w)).*1.*1.*1).
Proof.
  intros Hf Hne. split; [|split].
  - rewrite print_sale_report_run by done. cbn [snd].
    rewrite printed_emit. by rewrite bool_decide_eq_false_2.
  - intros sid s mn b. unfold select_report. rewrite list_elem_of_omap. split.
    + intros ([k s'] & Hin & Hrow). apply sales_by_sid_elem in Hin.
      cbn in Hrow.
      destruct (member (store w) !! mid s') eqn:Hm; simplify_eq/=.
      destruct (book (store w) !! bid s') eqn:Hb; simplify_eq/=. done.
    + intros (Hs & Hm & Hb). exists (sid, s). split.
      * by apply sales_by_sid_elem.
      * cbn. rewrite Hm. cbn. by rewrite Hb.
  - rewrite <- !list_fmap_compose. apply omap_keys_sorted.
    + intros [k s] y Hy. cbn in *.
      destruct (member (store w) !! mid s); simplify_eq/=.
      destruct (book (store w) !! bid s); simplify_eq/=. done.
    + apply sales_by_sid_strict.
Qed.

Lemma report_rows_witness :
  printed (session shop_sold []) (print_sale_report (session shop_sold [])).2
  = [ReportBlock 1 "2024-01-01" "Alice" "Seven proofs" 100 3 50 250].
Proof.
  destruct (report_rows (session shop_sold [])) as (Hp & _);
    [reflexivity | discriminate |].
  rewrite Hp. reflexivity.
Defined.

(** ** A new sale in the selection menu *)

Lemma sale_below_next_sid d k s : sale d !! k = Some s → k < next_sid d.
Proof. intros Hk. apply max_sid_ge in Hk. unfold next_sid. lia. Qed.

Lemma sales_by_sid_insert d r :
  sales_by_sid (insert_sale r d) = sales_by_sid d ++ [(next_sid d, r)].
Proof.
  apply (StronglySorted_unique_strong sid_lt).
  - intros x1 x2 _ _. unfold sid_lt. lia.
  - apply sales_by_sid_strict.
  - apply StronglySorted_app_2.
    + intros [k s] x2 Hk ->%list_elem_of_singleton.
      apply sales_by_sid_elem in Hk. unfold sid_lt. cbn.
      by eapply sale_below_next_sid.
    + apply sales_by_sid_strict.
    + repeat constructor.
  - unfold sales_by_sid. rewrite !merge_sort_Permutation. cbn.
    rewrite map_to_list_insert by apply next_sid_fresh.
    by rewrite Permutation_cons_append.
Qed.

(** The sale just recorded is the last entry of the selection menu. *)
Lemma new_sale_listed_last d r q b mname :
  member d !! mid r = Some mname →
  select_listing (sub_stock q b (insert_sale r d)) =
    select_listing d ++ [(next_sid d, sdate r, mname)].
Proof.
  intros Hm. unfold select_listing.
  change (sales_by_sid (sub_stock q b (insert_sale r d)))
    with (sales_by_sid (insert_sale r d)).
  rewrite sales_by_sid_insert. rewrite omap_app. cbn. by rewrite Hm.
Qed.

(** ** Undoing a sale *)

Lemma add_sale_commits w sdate_s mid_s bid_s qty_s disc_s rest info q disc :
  snapshot w = None →
  faults w = [] →
  stdin w = keyboard [sdate_s; mid_s; bid_s; qty_s; disc_s] ++ rest →
  validate_date sdate_s = true →
  truthy (member (store w) !! mid_s) = true →
  String.length bid_s = 1%nat →
  book (store w) !! bid_s = Some info →
  Str.py_int qty_s = Some q → 0 < q ≤ bstock info →
  Str.py_int disc_s = Some disc → 0 ≤ disc →
  let total := bprice info * q - disc in
  bindable [q; disc; total] = true →
  add_sale w =
    (Normal tt,
     World (sub_stock q bid_s
              (insert_sale (SaleRow sdate_s mid_s bid_s q disc total) (store w)))
       None rest
       (stdout w ++ [Prompt AskDate; Prompt AskMember; Prompt AskBook;
                     Prompt AskQty; Prompt AskDiscount; SaleAdded total])
       [] (sqllog w ++ [LogBegin (store w); LogCommit])).
Proof.
  intros Hs Hf Hi Hdate Hm Hlen Hb Hq Hqr Hd Hd0 total Hfit.
  assert (bindable [q] = true) as Hfitq.
  { cbn in Hfit |- *. apply andb_true_iff in Hfit as [-> _]. done. }
  subst total.
  destruct w as [d0 snap inp out fl lg]. cbn in Hs, Hf, Hi, Hm, Hb. subst.
  unfold add_sale. run. rewrite Hdate. run. rewrite Hm. run.
  rewrite Hlen. run. rewrite Hb. run. rewrite Hq. run.
  replace (q <=? 0) with false by lia. run.
  replace (bstock info <? q) with false by lia. run.
  rewrite Hd. run.
  replace (disc <? 0) with false by lia. run.
  rewrite Hfit. run. rewrite Hfitq. run.
  by rewrite <- !app_assoc.
Qed.

Lemma delete_sale_commits w choice_s confirm_s rest n sid sd mn s :
  snapshot w = None →
  faults w = [] →
  stdin w = keyboard [choice_s; confirm_s] ++ rest →
  Str.py_int choice_s = Some n → 1 ≤ n →
  select_listing (store w) !! Z.to_nat (n - 1) = Some (sid, sd, mn) →
  Str.lower confirm_s = "y" →
  sale (store w) !! sid = Some s →
  delete_sale w =
    (Normal tt,
     World (delete_row sid (add_stock (sqty s) (bid s) (store w)))
       None rest
       (stdout w ++ listing_of (store w) ++
        [Prompt AskDeleteChoice; Prompt (AskConfirm sid); SaleDeleted sid])
       [] (sqllog w ++ [LogBegin (store w); LogCommit])).
Proof.
  intros Hs Hf Hi Hc Hn Hrow Hy Hsale.
  destruct w as [d0 snap inp out fl lg]. cbn in Hs, Hf, Hi, Hrow, Hsale. subst.
  unfold delete_sale, listing_of. run.
  rewrite (lookup_nonempty _ _ _ Hrow). run.
  rewrite print_listing_run. run.
  rewrite (py_int_nonempty _ _ Hc). run. rewrite Hc. run.
  rewrite (choice_in_range _ _ _ Hn Hrow). run.
  erewrite index_run by (lia || exact Hrow). run.
  rewrite Hy. run.
  unfold select_bid_qty. rewrite Hsale. cbn.
  rewrite <- !app_assoc. simpl. by rewrite <- !app_assoc.
Qed.

Lemma undo_sale d r :
  let d' := delete_row (next_sid d)
              (add_stock (sqty r) (bid r)
                 (sub_stock (sqty r) (bid r) (insert_sale r d))) in
  member d' = member d ∧ book d' = book d ∧ sale d' = sale d ∧
  sale_seq d' = next_sid d.
Proof.
  cbn. split; [done|]. split; [|split; [|done]].
  - apply map_eq. intros b.
    destruct (decide (bid r = b)) as [<-|Hne].
    + rewrite !lookup_alter_eq.
      destruct (book d !! bid r) as [[t p st]|]; [|done].
      cbn. do 2 f_equal. lia.
    + by rewrite !lookup_alter_ne.
  - apply delete_insert_id, next_sid_fresh.
Qed.

(** X19. Deleting the sale that was just created undoes it.  A valid
    create-sale run whose quantity, discount and total fit in 64 bits,
    followed by a delete run that selects the last entry of the menu
    and confirms with an answer that lowers to y (working storage,
    nobody else writing) ends with the member, book and sale tables
    exactly as they were before the sale: the stock taken is given
    back in full.  Only the sale counter remembers the number that was
    used. *)
Theorem sale_added_then_deleted
    w sdate_s mid_s bid_s qty_s disc_s choice_s confirm_s rest
    info q disc :
  snapshot w = None →
  faults w = [] →
  stdin w = keyboard [sdate_s; mid_s; bid_s; qty_s; disc_s;
                      choice_s; confirm_s] ++ rest →
  validate_date sdate_s = true →
  truthy (member (store w) !! mid_s) = true →
  String.length bid_s = 1%nat →
  book (store w) !! bid_s = Some info →
  Str.py_int qty_s = Some q → 0 < q ≤ bstock info →
  Str.py_int disc_s = Some disc → 0 ≤ disc →
  bindable [q; disc; bprice info * q - disc] = true →
  Str.py_int choice_s =
    Some (Z.of_nat (length (select_listing (store w))) + 1) →
  Str.lower confirm_s = "y" →
  ∃ w',
    (add_sale >> delete_sale) w = (Normal tt, w') ∧
    member (store w') = member (store w) ∧
    book (store w') = book (store w) ∧
    sale (store w') = sale (store w) ∧
    sale_seq (store w') = next_sid (store w) ∧
    snapshot w' = None ∧ stdin w' = rest ∧
    last (stdout w') = Some (SaleDeleted (next_sid (store w))).
Proof.
  intros Hs Hf Hi Hdate Hm Hlen Hb Hq Hqr Hd Hd0 Hfit Hc Hy.
  unfold bind.
  rewrite (add_sale_commits w sdate_s mid_s bid_s qty_s disc_s
             (keyboard [choice_s; confirm_s] ++ rest) info q disc)
    by done.
  destruct (member (store w) !! mid_s) as [mname|] eqn:Hmn; [|done].
  set (r := SaleRow sdate_s mid_s bid_s q disc (bprice info * q - disc)).
  pose proof (new_sale_listed_last (store w) r q bid_s mname Hmn) as Hlist.
  erewrite (delete_sale_commits _ choice_s confirm_s rest _
              (next_sid (store w)) sdate_s mname r);
    [|done|done|done|exact Hc|lia| |done|].
  - eexists. split; [reflexivity|]. cbn [store snapshot stdin stdout].
    destruct (undo_sale (store w) r) as (Hme & Hbo & Hsa & Hse).
    split; [exact Hme|]. split; [exact Hbo|]. split; [exact Hsa|].
    split; [exact Hse|]. split; [done|]. split; [done|].
    by rewrite !last_app.
  - cbn [store]. rewrite Hlist.
    replace (Z.to_nat (Z.of_nat (length (select_listing (store w))) + 1 - 1))
      with (length (select_listing (store w))) by lia.
    by rewrite list_lookup_middle.
  - cbn. apply lookup_insert_eq.
Qed.

Lemma sale_added_then_deleted_witness :
  ∃ w',
    (add_sale >> delete_sale)
      (session shop ["2024-01-01"; "M1"; "7"; "3"; "50"; "1"; "y"])
      = (Normal tt, w') ∧
    book (store w') = book shop ∧ sale (store w') = sale shop.
Proof.
  destruct (sale_added_then_deleted
              (session shop ["2024-01-01"; "M1"; "7"; "3"; "50"; "1"; "y"])
              "2024-01-01" "M1" "7" "3" "50" "1" "y" []
              (BookRow "Seven proofs" 100 10) 3 50)
    as (w' & Hrun & _ & Hb & Hs & _);
    [reflexivity | reflexivity | reflexivity | reflexivity | reflexivity
    | reflexivity | reflexivity | reflexivity | simpl; lia | reflexivity | lia
    | reflexivity | reflexivity | reflexivity |].
  exists w'. split; [exact Hrun|]. split; [exact Hb | exact Hs].
Defined.

(** * Dates written YYYY-MM-DD *)

Lemma length_append (a b : string) :
  String.length (a ++ b) = (String.length a + String.length b)%nat.
Proof. induction a as [|c a IH]; simpl; [done|]. by rewrite IH. Qed.

Lemma count_append sep (a b : string) :
  Str.count sep (a ++ b) = (Str.count sep a + Str.count sep b)%nat.
Proof. induction a as [|c a IH]; simpl; [done|]. rewrite IH. lia. Qed.

Lemma split_whole sep a : Str.count sep a = 0%nat → Str.split sep a = [a].
Proof.
  induction a as [|c a IH]; cbn; [done|].
  destruct (Ascii.eqb c sep); [done|]. cbn. intros Ha. by rewrite IH.
Qed.

Lemma split_append sep (a b : string) :
  Str.count sep a = 0%nat →
  Str.split sep (a ++ String sep b) = a :: Str.split sep b.
Proof.
  induction a as [|c a IH]; simpl.
  - by rewrite Ascii.eqb_refl.
  - destruct (Ascii.eqb c sep); [done|]. simpl. intros Ha. by rewrite IH.
Qed.

Lemma split_hyphen (a b : string) :
  Str.count "-" a = 0%nat →
  Str.split "-" (a ++ "-" ++ b) = a :: Str.split "-" b.
Proof. apply (split_append "-" a b). Qed.

Lemma digit_facts n :
  (n < 10)%nat →
  Str.is_digit (digit n) = true ∧ Str.is_int_space (digit n) = false ∧
  Ascii.eqb (digit n) "-" = false.
Proof. intros Hn. do 10 (destruct n as [|n]; [done|]). lia. Qed.

Lemma digits_length l : String.length (digits_string l) = length l.
Proof. induction l; cbn; congruence. Qed.

Lemma digits_no_hyphen l :
  Forall (λ n, n < 10)%nat l → Str.count "-" (digits_string l) = 0%nat.
Proof.
  induction 1 as [|n l Hn Hl IH]; cbn; [done|].
  destruct (digit_facts n Hn) as (_ & _ & ->). by rewrite IH.
Qed.

Lemma digits_rstrip l :
  Forall (λ n, n < 10)%nat l →
  Str.rstrip Str.is_int_space (digits_string l) = digits_string l.
Proof.
  induction 1 as [|n l Hn Hl IH]; cbn; [done|]. rewrite IH.
  destruct (digit_facts n Hn) as (_ & -> & _).
  by destruct (digits_string l).
Qed.

Lemma digits_parse l acc :
  Forall (λ n, n < 10)%nat l →
  is_Some (Str.parse_digits acc true (digits_string l)).
Proof.
  intros Hl. revert acc. induction Hl as [|n l Hn Hl IH]; intros acc; cbn.
  - by eexists.
  - destruct (digit_facts n Hn) as (-> & _ & _). apply IH.
Qed.

Lemma digits_int n l :
  Forall (λ n, n < 10)%nat (n :: l) →
  is_Some (Str.py_int (digits_string (n :: l))).
Proof.
  intros Hl. unfold Str.py_int.
  assert (Str.lstrip Str.is_int_space (digits_string (n :: l))
          = digits_string (n :: l)) as ->.
  { cbn. apply Forall_cons in Hl as [Hn _].
    by destruct (digit_facts n Hn) as (_ & -> & _). }
  rewrite digits_rstrip by done.
  apply Forall_cons in Hl as [Hn Hl].
  pose proof (digits_parse l) as Hp.
  do 10 (destruct n as [|n]; [cbn; apply Hp; done|]). lia.
Qed.

Lemma four_digits_facts y :
  (y < 10 * 1000)%nat →
  String.length (four_digits y) = 4%nat ∧
  Str.count "-" (four_digits y) = 0%nat ∧
  is_Some (Str.py_int (four_digits y)).
Proof.
  intros Hy.
  assert (Forall (λ n, n < 10)%nat
            [y / 1000; (y / 100) mod 10; (y / 10) mod 10; y mod 10]%nat) as Hyd.
  { repeat (apply Forall_cons_2;
              [first [ apply Nat.mod_upper_bound; lia
                     | apply Nat.Div0.div_lt_upper_bound; lia ]|]).
    by constructor. }
  unfold four_digits. split; [by rewrite digits_length|].
  split; [by apply digits_no_hyphen|by apply digits_int].
Qed.

Lemma two_digits_facts n :
  (n < 32)%nat →
  String.length (two_digits n) = 2%nat ∧
  Str.count "-" (two_digits n) = 0%nat ∧
  Str.py_int (two_digits n) = Some (Z.of_nat n).
Proof. intros Hn. do 32 (destruct n as [|n]; [done|]). lia. Qed.

Lemma iso_date_split y m d :
  (y < 10 * 1000)%nat → (m < 32)%nat → (d < 32)%nat →
  Str.split "-" (iso_date y m d) = [four_digits y; two_digits m; two_digits d].
Proof.
  intros Hy Hm Hd.
  destruct (four_digits_facts y Hy) as (_ & Hcy & _).
  destruct (two_digits_facts m Hm) as (_ & Hcm & _).
  destruct (two_digits_facts d Hd) as (_ & Hcd & _).
  unfold iso_date.
  rewrite !split_hyphen by done. by rewrite split_whole.
Qed.

(** X20. Every date written the way the prompt asks, a four-digit
    year, a two-digit month from 01 to 12 and a two-digit day from 01
    to 31 joined by hyphens, is accepted by [validate_date], for every
    year from 0000 to 9999 (the year is not range-checked) and every
    combination of month and day (so also 31 April). *)
Theorem iso_date_accepted y m d :
  (y < 10 * 1000)%nat → (1 ≤ m ≤ 12)%nat → (1 ≤ d ≤ 31)%nat →
  validate_date (iso_date y m d) = true.
Proof.
  intros Hy Hm Hd.
  destruct (four_digits_facts y Hy) as (Hly & Hcy & [yv Hiy]).
  destruct (two_digits_facts m) as (Hlm & Hcm & Him); [lia|].
  destruct (two_digits_facts d) as (Hld & Hcd & Hid); [lia|].
  unfold validate_date. rewrite iso_date_split by lia.
  unfold iso_date. rewrite !length_append, !count_append.
  rewrite Hly, Hlm, Hld, Hcy, Hcm, Hcd. cbn [fmap list_fmap].
  rewrite Hiy, Him, Hid. cbn.
  rewrite !Z.gtb_ltb.
  replace (Z.of_nat m <? 1) with false by lia.
  replace (12 <? Z.of_nat m) with false by lia.
  replace (Z.of_nat d <? 1) with false by lia.
  replace (31 <? Z.of_nat d) with false by lia.
  done.
Qed.

Lemma iso_date_accepted_witness :
  iso_date 2024 4 31 = "2024-04-31" ∧ validate_date (iso_date 2024 4 31) = true.
Proof. split; [reflexivity | apply iso_date_accepted; lia]. Defined.

(** * The ends of a session *)

(** ** The end of the input *)

(** X21. When the input has ended, [add_sale] handles the [EOFError]
    of its first prompt itself: it prints the general error message
    and returns normally.  [update_sale] and [delete_sale] have no
    clause for it: once their menu and prompt are printed, the
    [EOFError] leaves them. *)
Theorem end_of_input w :
  stdin w = [] →
  snapshot w = None →
  add_sale w = (Normal tt, emit [Prompt AskDate; OtherError EOFError] w) ∧
  (faults w = [] → select_listing (store w) ≠ [] →
   update_sale w =
     (Raised EOFError,
      emit (listing_of (store w) ++ [Prompt AskUpdateChoice]) w) ∧
   delete_sale w =
     (Raised EOFError,
      emit (listing_of (store w) ++ [Prompt AskDeleteChoice]) w)).
Proof.
  destruct w as [d0 snap inp out fl lg]. cbn [stdin snapshot faults store].
  intros -> ->. split.
  - unfold add_sale. run. by rewrite <- app_assoc.
  - intros -> Hne. unfold listing_of, update_sale, delete_sale. run.
    rewrite bool_decide_eq_false_2 by done. run.
    rewrite !print_listing_run. run.
    split; same_output.
Qed.

Lemma end_of_input_witness :
  (add_sale (session shop_sold [])).1 = Normal tt ∧
  (delete_sale (session shop_sold [])).1 = Raised EOFError.
Proof.
  destruct (end_of_input (session shop_sold [])) as [Ha Hud];
    [reflexivity | reflexivity |].
  destruct Hud as [_ Hd]; [reflexivity | discriminate |].
  rewrite Ha, Hd. split; reflexivity.
Defined.

(** X22. Run on an input that has already ended, [main] prints the
    menu and its prompt once, then the general error message for the
    [EOFError], then the goodbye message, and ends normally with the
    store untouched. *)
Theorem main_end_of_input w :
  stdin w = [] →
  snapshot w = None →
  head (faults w) ≠ Some true →
  main w =
    (Normal tt,
     emit [Menu; Prompt AskMenu; OtherError EOFError; Goodbye]
       (set_faults (tail (faults w)) w)).
Proof.
  destruct w as [d0 snap inp out fl lg]. cbn [stdin snapshot faults].
  intros -> -> Hf. unfold main.
  destruct fl as [|[] fl]; [|by destruct Hf|]; cbn; by rewrite <- !app_assoc.
Qed.

Lemma main_end_of_input_witness :
  main (session shop []) =
    (Normal tt,
     World shop None []
       [Menu; Prompt AskMenu; OtherError EOFError; Goodbye] [] []).
Proof.
  apply (main_end_of_input (session shop []));
    [reflexivity | reflexivity | discriminate].
Defined.

(** ** Leaving the program *)

(** X23. When the database cannot be opened, [main] prints the
    connection error and the goodbye message and ends: the menu is
    never shown, no line is read and the store is untouched. *)
Theorem main_connection_failure w fs :
  faults w = true :: fs →
  main w =
    (Normal tt,
     emit [ErrConnect StorageFault; Goodbye] (log LogError (set_faults fs w))).
Proof.
  destruct w as [d0 snap inp out fl lg]. cbn [faults]. intros ->.
  unfold main. cbn. by rewrite <- !app_assoc.
Qed.

Lemma main_connection_failure_witness :
  main no_database =
    (Normal tt,
     World shop None (keyboard ["5"]) [ErrConnect StorageFault; Goodbye]
       [] [LogError]).
Proof. apply (main_connection_failure no_database []). reflexivity. Defined.

(** X24. A first menu choice that is empty or 5 once the white space
    around it is stripped ends the program: the menu, the prompt and
    the goodbye message are all that is printed, the lines typed after
    it are left unread, and the program writes nothing to the
    store. *)
Theorem main_quits w t rest :
  snapshot w = None →
  head (faults w) ≠ Some true →
  stdin w = t :: rest →
  Str.strip (line t) = EmptyString ∨ Str.strip (line t) = "5" →
  main w =
    (Normal tt,
     emit [Menu; Prompt AskMenu; Goodbye]
       (set_stdin rest
          (set_store (interfere (meanwhile t) (store w))
             (set_faults (tail (faults w)) w)))).
Proof.
  destruct w as [d0 snap inp out fl lg]. cbn [stdin snapshot faults store].
  intros -> Hf -> Hq. unfold main.
  destruct fl as [|[] fl]; [|by destruct Hf|];
    cbn - [add_sale print_sale_report update_sale delete_sale Str.strip];
    unfold menu_body;
    cbn - [add_sale print_sale_report update_sale delete_sale Str.strip];
    destruct Hq as [-> | ->]; cbn; by rewrite <- !app_assoc.
Qed.

Lemma main_quits_witness :
  main (session shop [" 5 "; "1"]) =
    (Normal tt,
     World shop None (keyboard ["1"]) [Menu; Prompt AskMenu; Goodbye] [] []).
Proof.
  apply (main_quits (session shop [" 5 "; "1"]) (Typed " 5 " None)
           (keyboard ["1"]));
    [reflexivity | discriminate | reflexivity | right; reflexivity].
Defined.

(** X25. A menu choice that, stripped of white space, is none of the
    empty string, 1, 2, 3, 4, 5 (so also 01, or 1.0) gets the
    invalid-option message and another turn of the loop; no handler is
    run. *)
Theorem menu_unknown_choice w t rest :
  stdin w = t :: rest →
  Str.strip (line t) ∉ [EmptyString; "1"; "2"; "3"; "4"; "5"] →
  menu_body w =
    (Normal true,
     emit [Menu; Prompt AskMenu; ErrMenuChoice]
       (set_stdin rest (set_store (interfere (meanwhile t) (store w)) w))).
Proof.
  destruct w as [d0 snap inp out fl lg]. cbn [stdin store].
  intros -> Hc. unfold menu_body.
  cbn - [add_sale print_sale_report update_sale delete_sale Str.strip].
  repeat match goal with
         | |- context [(Str.strip (line t) =? ?s)%string] =>
             replace (Str.strip (line t) =? s)%string with false
               by (symmetry; apply String.eqb_neq; intros Heq; apply Hc;
                   rewrite Heq; set_solver)
         end.
  cbn. by rewrite <- !app_assoc.
Qed.

Lemma menu_unknown_choice_witness :
  menu_body (session shop ["01"]) =
    (Normal true,
     World shop None [] [Menu; Prompt AskMenu; ErrMenuChoice] [] []).
Proof.
  apply (menu_unknown_choice (session shop ["01"]) (Typed "01" None) []);
    [reflexivity|].
  apply (bool_decide_unpack _). vm_compute. exact I.
Defined.
